(** * crawl4ai-mcp: result normalisation, tool entry points and CLI

    A shallow embedding of [src/crawl4ai_mcp/{types,config,server,main}.py].

    - [handle_crawl_result] is embedded as a function from Python values to
      the outcome of a Python expression (a value or a raised exception).
    - [deep_crawl], [crawl] and [google_search] are embedded in a small
      statement monad that threads the local frame (the [results] list and
      the trace of calls made on the crawler session) through
      [try]/[except]/[finally], [async with] and [with redirect_stdout].
    - the click command of [main.py] is embedded as option resolution
      followed by the body of [main]. *)

From Stdlib Require Import String List Bool Arith Lia ZArith.
Import ListNotations.
Open Scope string_scope.
Open Scope list_scope.

Set Implicit Arguments.
Set Warnings "-register-all".

(** ** Python values and exceptions *)

Module Py.

(** A raised exception.  [exc_is_Exception] tells whether the object is an
    instance of [Exception] (what [except Exception] catches); it is
    [false] for [asyncio.CancelledError], [KeyboardInterrupt] and the
    other direct [BaseException] subclasses.  [exc_str] is [str(e)]. *)
Record Exc : Type := mkExc {
  exc_type : string;
  exc_is_Exception : bool;
  exc_str : string
}.

(** Outcome of evaluating an expression. *)
Inductive Result (A : Type) : Type :=
| Ok (a : A)
| Raise (e : Exc).
Arguments Ok {A} a.
Arguments Raise {A} e.

Definition bind {A B} (m : Result A) (k : A -> Result B) : Result B :=
  match m with
  | Ok a => k a
  | Raise e => Raise e
  end.

(** Truth value of a [str]: the empty string is falsy. *)
Definition truthy_str (s : string) : bool :=
  match s with
  | EmptyString => false
  | String _ _ => true
  end.

(** Truth value of a [str | None]. *)
Definition truthy_opt (o : option string) : bool :=
  match o with
  | None => false
  | Some s => truthy_str s
  end.

(** [a or b] on [str | None] operands. *)
Definition or_opt (a b : option string) : option string :=
  if truthy_opt a then a else b.

(** [a or b] where [b] is a [str] literal: the result is a [str]. *)
Definition or_str (a : option string) (b : string) : string :=
  match a with
  | Some s => if truthy_str s then s else b
  | None => b
  end.

(** [xs[i]] on a list: [IndexError] out of range. *)
Definition IndexError : Exc :=
  mkExc "IndexError" true "list index out of range".

Definition getitem {A} (xs : list A) (i : nat) : Result A :=
  match nth_error xs i with
  | Some x => Ok x
  | None => Raise IndexError
  end.

(** Attribute access on [None]. *)
Definition AttributeError (attr : string) : Exc :=
  mkExc "AttributeError" true
        ("'NoneType' object has no attribute '" ++ attr ++ "'").

End Py.

Import Py.

(** ** types.py *)

Inductive StatusType : Type := success | error.

(** [CacheModeType], a [Literal] of five strings. *)
Inductive CacheModeType : Type :=
| enabled | disabled | read_only | write_only | bypass.

(** [MCPCrawlResult]: [status] is required, the three other fields default
    to [None]. *)
Record MCPCrawlResult : Type := mkMCPCrawlResult {
  status : StatusType;
  url : option string;
  content : option string;
  error_message : option string
}.

(** [MCPCrawlResult(status="error", error_message=msg)]. *)
Definition error_result (msg : string) : MCPCrawlResult :=
  mkMCPCrawlResult error None None (Some msg).

(** ** config.py: the fields of [Settings] read by server.py *)

Record Settings : Type := mkSettings {
  word_count_threshold : Z;
  cache_mode : CacheModeType;
  max_depth : Z;
  max_pages : Z;
  include_external : bool;
  content_type : string
}.

Definition default_settings : Settings :=
  mkSettings 10 bypass 2 50 false "markdown".

(** ** The crawler library's result objects, as server.py reads them *)

(** The markdown object of a crawl result.  [md_bool] is [bool(markdown)],
    decided by the object's own class: always [True] for a plain object,
    and the non-emptiness of the raw markdown for the library's
    string-compatible wrapper. *)
Record MarkdownGenerationResult : Type := mkMarkdown {
  md_bool : bool;
  fit_markdown : option string;
  raw_markdown : option string
}.

Record CrawlResult : Type := mkCrawlResult {
  cr_success : bool;
  cr_url : string;
  cr_html : option string;
  cr_markdown : option MarkdownGenerationResult;
  cr_extracted_content : option string;
  cr_error_message : option string
}.

(** Truth value of [result.markdown]: [None] is falsy. *)
Definition truthy_markdown (m : option MarkdownGenerationResult) : bool :=
  match m with
  | None => false
  | Some md => md_bool md
  end.

(** The values server.py can be handed by the crawler: a [CrawlResult], a
    [CrawlResultContainer] (a wrapper around a list, indexed with
    [container[i]]), an asynchronous iterator (the elements it yields, then
    either exhaustion or a raised exception), or any other object, of which
    only [repr(type(obj))] is observed.  An asynchronous iterator is a
    finite sequence here: on one that never ends the entry points do not
    return at all. *)
Inductive PyValue : Type :=
| PyCrawlResult (r : CrawlResult)
| PyContainer (results : list PyValue)
| PyAsyncIterator (items : list PyValue) (ending : option Exc)
| PyOther (type_repr : string).

(** [f"{type(v)}"]. *)
Definition type_repr_of (v : PyValue) : string :=
  match v with
  | PyCrawlResult _ => "<class 'crawl4ai.models.CrawlResult'>"
  | PyContainer _ => "<class 'crawl4ai.models.CrawlResultContainer'>"
  | PyAsyncIterator _ _ => "<class 'async_generator'>"
  | PyOther t => t
  end.

(** ** server.py: handle_crawl_result *)

Definition no_valid_content : string :=
  "The crawler failed to extract any valid content.".

Definition unknown_crawl_error : string := "Unknown crawl error.".

(** The if/elif chain on a value already known to be a [CrawlResult]
    (lines 34-58). *)
Definition handle_outcome (settings : Settings) (result : CrawlResult)
  : Result MCPCrawlResult :=
  if cr_success result && (content_type settings =? "html") then
    Ok (mkMCPCrawlResult success (Some (cr_url result)) (cr_html result) None)
  else if cr_success result && truthy_markdown (cr_markdown result) then
    let output_content := or_str (cr_extracted_content result) "" in
    if negb (truthy_str output_content)
       && truthy_markdown (cr_markdown result) then
      match cr_markdown result with
      | Some md =>
          let output_content := or_opt (fit_markdown md) (raw_markdown md) in
          Ok (mkMCPCrawlResult success (Some (cr_url result))
                               output_content None)
      | None => Raise (AttributeError "fit_markdown")
      end
    else
      Ok (error_result no_valid_content)
  else
    Ok (error_result (or_str (cr_error_message result) unknown_crawl_error)).

Definition handle_crawl_result (settings : Settings) (result : PyValue)
  : Result MCPCrawlResult :=
  bind (match result with
        | PyContainer results => getitem results 0
        | _ => Ok result
        end)
       (fun result =>
          match result with
          | PyCrawlResult r => handle_outcome settings r
          | _ =>
              Ok (error_result
                    ("Unexpected result type from crawler: "
                       ++ type_repr_of result))
          end).

(** ** The statement monad

    A block of statements runs on a frame [S] and completes normally, by
    [return], or by a raised exception; the frame survives all three, which
    is what lets [results] keep its elements across an [except]. *)

Module Stmt.

Inductive Completion (R : Type) : Type :=
| Normal
| Return (r : R)
| Throw (e : Exc).
Arguments Normal {R}.
Arguments Return {R} r.
Arguments Throw {R} e.

Definition t (S R : Type) : Type := S -> S * Completion R.

Section Combinators.
Context {S R : Type}.

Definition skip : t S R := fun s => (s, Normal).

Definition ret (r : R) : t S R := fun s => (s, Return r).

Definition throw (e : Exc) : t S R := fun s => (s, Throw e).

Definition modify (f : S -> S) : t S R := fun s => (f s, Normal).

(** [a; b] *)
Definition seq (a b : t S R) : t S R :=
  fun s =>
    match a s with
    | (s', Normal) => b s'
    | (s', c) => (s', c)
    end.

(** [x = <expr>; k x], where evaluating the expression may raise. *)
Definition eval {A} (e : Result A) (k : A -> t S R) : t S R :=
  match e with
  | Ok a => k a
  | Raise exc => throw exc
  end.

(** [return <expr reading the frame>] *)
Definition ret_with (f : S -> R) : t S R := fun s => (s, Return (f s)).

(** [try: body / except Exception as e: handler e].  An exception that
    is not an [Exception] instance passes through. *)
Definition try_except (body : t S R) (handler : Exc -> t S R) : t S R :=
  fun s =>
    match body s with
    | (s', Throw e) =>
        if exc_is_Exception e then handler e s' else (s', Throw e)
    | (s', c) => (s', c)
    end.

(** [try: body / finally: finalizer].  The finalizer runs on every
    completion of the body; when it completes normally the body's
    completion stands, otherwise its own replaces it. *)
Definition try_finally (body finalizer : t S R) : t S R :=
  fun s =>
    match body s with
    | (s', c) =>
        match finalizer s' with
        | (s'', Normal) => (s'', c)
        | (s'', c') => (s'', c')
        end
    end.

(** [async for x in it: body x], on an iterator that yields [items]
    and then is exhausted ([ending = None]) or raises. *)
Fixpoint async_for {A} (items : list A) (ending : option Exc)
         (body : A -> t S R) : t S R :=
  match items with
  | [] =>
      match ending with
      | None => skip
      | Some e => throw e
      end
  | x :: rest => seq (body x) (async_for rest ending body)
  end.

End Combinators.

End Stmt.

Import Stmt.

Notation "a ;; b" := (Stmt.seq a b) (at level 61, right associativity).

(** ** The crawler library, as server.py calls it *)

Record KeywordRelevanceScorer : Type := mkScorer {
  scorer_keywords : list string;
  scorer_weight_tenths : Z
}.

Inductive DeepCrawlStrategy : Type :=
| BestFirstCrawlingStrategy
    (max_depth : Z) (include_external : bool)
    (url_scorer : KeywordRelevanceScorer) (max_pages : Z)
| BFSDeepCrawlStrategy
    (max_depth : Z) (max_pages : Z) (include_external : bool).

(** The keyword arguments server.py passes to [CrawlerRunConfig]; an
    argument a call site leaves out is [None].  The stealth settings
    ([user_agent_mode="random"], [simulate_user=True], the timezone and the
    geolocation) are the same constants at every call site and are not
    repeated here. *)
Record CrawlerRunConfig : Type := mkRunConfig {
  deep_crawl_strategy : option DeepCrawlStrategy;
  stream : bool;
  cfg_cache_mode : CacheModeType;
  cfg_word_count_threshold : Z;
  exclude_external_links : option bool;
  exclude_social_media_links : option bool;
  process_iframes : option bool;
  remove_overlay_elements : option bool;
  magic : option bool
}.

(** One crawler session.  [arun] and [arun_many] return a value or raise;
    [aenter], [aexit] and [close] complete ([None]) or raise ([Some e]).  The library's [__aexit__] awaits [close()] and returns [None],
    so it never swallows an exception of the block. *)
Record AsyncWebCrawler : Type := mkCrawler {
  aenter : option Exc;
  aexit : option Exc;
  arun : string -> CrawlerRunConfig -> Result PyValue;
  arun_many : list string -> CrawlerRunConfig -> Result PyValue;
  close : option Exc
}.

(** The process an entry point runs in, as one call sees it: what
    [AsyncWebCrawler(config=settings.browser_config)] does -- it returns
    the session or raises -- and whether building the wrapper of
    [with redirect_stdout(io.TextIOWrapper(sys.stderr.buffer, ...))]
    raises, as it does with a [ValueError] once [sys.stderr.buffer] has
    been closed.  Building the configuration objects before the [try] is
    taken not to raise. *)
Record Process : Type := mkProcess {
  new_crawler : Result AsyncWebCrawler;
  redirect_stdout : option Exc
}.

(** [with redirect_stdout(io.TextIOWrapper(sys.stderr.buffer, ...)): block].
    The wrapper is built before the block is entered; leaving the block
    only restores [sys.stdout], which changes nothing here, so the
    statements that follow the block are written inside it. *)
Definition with_redirect_stdout {S R} (proc : Process) (block : Stmt.t S R)
  : Stmt.t S R :=
  match redirect_stdout proc with
  | Some e => throw e
  | None => block
  end.

(** Calls made on the session, in order; [EvCreate] is the call of the
    constructor, whether it returns or raises. *)
Inductive Event : Type :=
| EvCreate
| EvEnter
| EvExit
| EvArun (url : string)
| EvArunMany (urls : list string)
| EvClose.

Definition is_close (ev : Event) : bool :=
  match ev with
  | EvClose => true
  | _ => false
  end.

(** The frame of an entry point: the local [results] and the trace. *)
Record Frame : Type := mkFrame {
  trace : list Event;
  results : list MCPCrawlResult
}.

Definition initial_frame : Frame := mkFrame [] [].

Definition Tool : Type := Stmt.t Frame (list MCPCrawlResult).

Definition log (ev : Event) : Tool :=
  modify (fun fr => mkFrame (trace fr ++ [ev]) (results fr)).

(** [results.append(r)] *)
Definition results_append (r : MCPCrawlResult) : Tool :=
  modify (fun fr => mkFrame (trace fr) (results fr ++ [r])).

(** [results = []] *)
Definition results_init : Tool :=
  modify (fun fr => mkFrame (trace fr) []).

(** [await <call that returns None or raises>] *)
Definition await_unit (ev : Event) (outcome : option Exc) : Tool :=
  log ev ;;
  match outcome with
  | None => skip
  | Some e => throw e
  end.

(** [x = await <call>; k x] *)
Definition await {A} (ev : Event) (outcome : Result A) (k : A -> Tool)
  : Tool :=
  log ev ;; eval outcome k.

(** [async with AsyncWebCrawler(...) as crawler: block].  When the
    constructor or [__aenter__] raises, the block and [__aexit__] are
    skipped; otherwise [__aexit__] runs on every completion of the
    block. *)
Definition async_with (proc : Process) (block : AsyncWebCrawler -> Tool)
  : Tool :=
  log EvCreate ;;
  eval (new_crawler proc)
       (fun crawler =>
          await_unit EvEnter (aenter crawler) ;;
          try_finally (block crawler) (await_unit EvExit (aexit crawler))).

Definition not_async_iterator (pages : PyValue) : MCPCrawlResult :=
  error_result
    ("Expected an AsyncIterator instance from arun, got: "
       ++ type_repr_of pages).

(** [results.append(handle_crawl_result(page_result))], the loop body. *)
Definition normalise_and_append (settings : Settings) (page_result : PyValue)
  : Tool :=
  eval (handle_crawl_result settings page_result) results_append.

(** [if not isinstance(pages, AsyncIterator): return [...]], then
    [async for page_result in pages: <loop body>]. *)
Definition consume (settings : Settings) (pages : PyValue) : Tool :=
  match pages with
  | PyAsyncIterator items ending =>
      async_for items ending (normalise_and_append settings)
  | _ => ret [not_async_iterator pages]
  end.

(** ** server.py: deep_crawl *)

(** [if keywords: ... else: ...] on a [list[str] | None]: [None] and the
    empty list are falsy. *)
Definition deep_crawl_strategy_for (settings : Settings)
           (keywords : option (list string)) : DeepCrawlStrategy :=
  match keywords with
  | Some ((_ :: _) as kws) =>
      let scorer := mkScorer kws 7 in
      BestFirstCrawlingStrategy
        (max_depth settings) false scorer (max_pages settings)
  | _ =>
      BFSDeepCrawlStrategy
        (max_depth settings) (max_pages settings) (include_external settings)
  end.

Definition deep_crawl_config (settings : Settings)
           (keywords : option (list string)) : CrawlerRunConfig :=
  mkRunConfig (Some (deep_crawl_strategy_for settings keywords)) true
              (cache_mode settings) (word_count_threshold settings)
              None None None None None.

Definition deep_crawl_error (e : Exc) : MCPCrawlResult :=
  error_result ("An error occurred during deep crawl: " ++ exc_str e).

(** The session is constructed before the [try]: an exception of the
    constructor leaves [deep_crawl] as it is, and there is then no session
    to close. *)
Definition deep_crawl (settings : Settings) (proc : Process)
           (url : string) (keywords : option (list string)) : Tool :=
  let crawl_config := deep_crawl_config settings keywords in
  results_init ;;
  log EvCreate ;;
  eval (new_crawler proc)
       (fun crawler =>
          try_finally
            (try_except
               (with_redirect_stdout proc
                  (await (EvArun url) (arun crawler url crawl_config)
                         (consume settings)))
               (fun e => results_append (deep_crawl_error e)))
            (await_unit EvClose (close crawler)) ;;
          ret_with results).

(** ** server.py: crawl *)

Definition crawl_config (settings : Settings) : CrawlerRunConfig :=
  mkRunConfig None true
              (cache_mode settings) (word_count_threshold settings)
              (Some false) (Some true) (Some true) (Some true) (Some true).

Definition crawl_error (e : Exc) : MCPCrawlResult :=
  error_result ("An unexpected error occurred during crawl: " ++ exc_str e).

Definition crawl (settings : Settings) (proc : Process)
           (urls : list string) : Tool :=
  let run_cfg := crawl_config settings in
  results_init ;;
  try_except
    (async_with proc
       (fun crawler =>
          with_redirect_stdout proc
            (await (EvArunMany urls) (arun_many crawler urls run_cfg)
                   (consume settings))))
    (fun e => results_append (crawl_error e)) ;;
  ret_with results.

(** What the caller of a tool observes. *)
Definition run (tool : Tool) : Frame * Completion (list MCPCrawlResult) :=
  tool initial_frame.

(** ** server.py: google_search *)

(** The session calls at any return type ([google_search] returns one
    result, not a list): [log], [await_unit], [await] and [async_with]
    above are these at the type of [Tool]. *)
Section SessionCalls.
Context {R : Type}.

Definition log_call (ev : Event) : Stmt.t Frame R :=
  modify (fun fr => mkFrame (trace fr ++ [ev]) (results fr)).

Definition await_call_unit (ev : Event) (outcome : option Exc)
  : Stmt.t Frame R :=
  log_call ev ;;
  match outcome with
  | None => skip
  | Some e => throw e
  end.

Definition await_call {A} (ev : Event) (outcome : Result A)
           (k : A -> Stmt.t Frame R) : Stmt.t Frame R :=
  log_call ev ;; eval outcome k.

Definition async_with_session (proc : Process)
           (block : AsyncWebCrawler -> Stmt.t Frame R) : Stmt.t Frame R :=
  log_call EvCreate ;;
  eval (new_crawler proc)
       (fun crawler =>
          await_call_unit EvEnter (aenter crawler) ;;
          try_finally (block crawler)
                      (await_call_unit EvExit (aexit crawler))).

End SessionCalls.

Definition SearchTool : Type := Stmt.t Frame MCPCrawlResult.

(** The keyword arguments of the search's [CrawlerRunConfig] that the
    record has a field for; [keep_attrs=["id", "class"]],
    [keep_data_attributes=True] and [delay_before_return_html=2] are
    constants of this call site, like the stealth settings. *)
Definition google_search_config (settings : Settings) : CrawlerRunConfig :=
  mkRunConfig None true
              (cache_mode settings) (word_count_threshold settings)
              None None None None None.

(** [f"https://www.google.com/search?q={quote(query)}&start=0&num=10"],
    given [quote(query)]. *)
Definition google_search_url (quoted : string) : string :=
  "https://www.google.com/search?q=" ++ quoted ++ "&start=0&num=10".

Definition google_search_error (e : Exc) : MCPCrawlResult :=
  error_result ("An error occurred during Google search: " ++ exc_str e).

(** [quote] is [urllib.parse.quote], which returns the percent-encoded
    string or raises (on a string that cannot be encoded as UTF-8); it is
    evaluated inside the redirection block, as the argument of [arun]. *)
Definition google_search (quote : string -> Result string)
           (settings : Settings) (proc : Process)
           (query : string) : SearchTool :=
  let crawl_config := google_search_config settings in
  try_except
    (async_with_session proc
       (fun crawler =>
          with_redirect_stdout proc
            (eval (quote query)
               (fun quoted =>
                  await_call (EvArun (google_search_url quoted))
                    (arun crawler (google_search_url quoted) crawl_config)
                    (fun result =>
                       eval (handle_crawl_result settings result) ret)))))
    (fun e => ret (google_search_error e)).

(** What the caller of the search observes. *)
Definition run_search (tool : SearchTool) : Frame * Completion MCPCrawlResult :=
  tool initial_frame.

(** ** main.py *)

Module Cli.

Definition transport_choices : list string := ["stdio"; "html"].

Definition transport_default : string := "stdio".

(** [click.Choice(choices)]: the value must be one of the choices
    (compared case-sensitively); anything else is a usage error. *)
Definition choice (choices : list string) (value : string)
  : option string :=
  if existsb (String.eqb value) choices then Some value else None.

(** The value click binds to the parameter [transport]: the default when
    the flag is not given.  [None] is a usage error: [main] is not
    run. *)
Definition transport_option (flag : option string) : option string :=
  match flag with
  | None => Some transport_default
  | Some value => choice transport_choices value
  end.

(** The body of [main]: the [transport] handed to [app.run]. *)
Definition main (transport : string) : string :=
  if transport =? "http" then "streamable-http" else "stdio".

(** The command: option resolution, then [main]. *)
Definition command (flag : option string) : option string :=
  option_map main (transport_option flag).

End Cli.

(** ** Definitions used by the statements *)

Definition is_some {A} (o : option A) : bool :=
  match o with
  | Some _ => true
  | None => false
  end.

(** The shape invariant as the specification words it: on success url and
    content are present and the error message is absent; on error content
    and url are absent and the error message is present. *)
Definition shape_invariant (r : MCPCrawlResult) : bool :=
  match status r with
  | success =>
      is_some (url r) && is_some (content r) && negb (is_some (error_message r))
  | error =>
      negb (is_some (content r)) && negb (is_some (url r))
      && is_some (error_message r)
  end.

(** The outcome object a value is normalised as: the value itself, or the
    first element of a container. *)
Definition outcome_of (v : PyValue) : option CrawlResult :=
  match v with
  | PyCrawlResult r => Some r
  | PyContainer (PyCrawlResult r :: _) => Some r
  | _ => None
  end.

(** Sample data, after tests/test_server.py. *)

Definition with_content_type (ct : string) : Settings :=
  mkSettings 10 bypass 2 50 false ct.

Definition mock_crawl_result (ok : bool) (u : string) (html : option string)
           (fit raw : option string) (err : option string) : CrawlResult :=
  mkCrawlResult ok u html
    (if truthy_opt fit || truthy_opt raw
     then Some (mkMarkdown true fit raw) else None)
    None err.

Definition page (u fit : string) : PyValue :=
  PyCrawlResult (mock_crawl_result true u None (Some fit) None None).

Definition pre_extracted : CrawlResult :=
  mkCrawlResult true "http://x" None
    (Some (mkMarkdown true (Some "A") (Some "B"))) (Some "{}") None.

Definition plain_exception (msg : string) : Exc :=
  mkExc "Exception" true msg.

(** A session whose [arun] and [arun_many] both behave as [outcome]. *)
Definition mock_crawler (outcome : Result PyValue) : AsyncWebCrawler :=
  mkCrawler None None (fun _ _ => outcome) (fun _ _ => outcome) None.

(** [urllib.parse.quote] on the queries made of unreserved characters
    only, which it returns unchanged. *)
Definition quote_unreserved (query : string) : Result string := Ok query.

(** [asyncio.CancelledError], a [BaseException] that is not an
    [Exception]. *)
Definition cancelled : Exc := mkExc "CancelledError" false "".

(** A session that opens and closes normally, with the given answers. *)
Definition crawler_with (answer : Result PyValue) (on_close : option Exc)
  : AsyncWebCrawler :=
  mkCrawler None None (fun _ _ => answer) (fun _ _ => answer) on_close.

(** The process in which the session is constructed and stdout is
    redirected. *)
Definition process_with (crawler : AsyncWebCrawler) : Process :=
  mkProcess (Ok crawler) None.

(** The [ValueError] of a wrapper built on a closed [sys.stderr.buffer]. *)
Definition closed_file : Exc :=
  mkExc "ValueError" true "I/O operation on closed file".

(** The process in which the session is constructed and the redirection
    raises. *)
Definition process_without_stderr (crawler : AsyncWebCrawler) : Process :=
  mkProcess (Ok crawler) (Some closed_file).

(** A session whose [__aenter__] or [__aexit__] may raise. *)
Definition scoped_crawler (on_enter on_exit : option Exc)
           (answer : Result PyValue) : AsyncWebCrawler :=
  mkCrawler on_enter on_exit (fun _ _ => answer) (fun _ _ => answer) None.

(** * Properties *)

(** ** Python truth values *)

Lemma truthy_str_nonempty (s : string) : truthy_str s = true <-> s <> "".
Proof.
  destruct s; simpl; split; intro H.
  - discriminate.
  - now contradiction H.
  - discriminate.
  - reflexivity.
Qed.

Lemma truthy_opt_true (o : option string) :
  truthy_opt o = true <-> exists s, o = Some s /\ s <> "".
Proof.
  destruct o as [s|]; simpl.
  - rewrite truthy_str_nonempty. split.
    + intro H. now exists s.
    + intros (s' & E & H). now injection E as ->.
  - split; [discriminate | intros (s & E & _); discriminate].
Qed.

Lemma truthy_opt_false (o : option string) :
  truthy_opt o = false <-> o = None \/ o = Some "".
Proof.
  destruct o as [[|c s]|]; simpl; split; intro H; auto;
    try discriminate; destruct H as [H|H]; discriminate.
Qed.

Lemma or_str_truthy (a : option string) (b s : string) :
  a = Some s -> s <> "" -> or_str a b = s.
Proof.
  intros -> H. apply truthy_str_nonempty in H. simpl. now rewrite H.
Qed.

Lemma or_str_falsy (a : option string) (b : string) :
  a = None \/ a = Some "" -> or_str a b = b.
Proof. intros [-> | ->]; reflexivity. Qed.

Lemma or_opt_truthy (a b : option string) (s : string) :
  a = Some s -> s <> "" -> or_opt a b = Some s.
Proof.
  intros -> H. apply truthy_str_nonempty in H.
  unfold or_opt. simpl. now rewrite H.
Qed.

Lemma or_opt_falsy (a b : option string) :
  a = None \/ a = Some "" -> or_opt a b = b.
Proof. intros [-> | ->]; reflexivity. Qed.

Lemma html_mode_eqb (settings : Settings) :
  content_type settings = "markdown" ->
  (content_type settings =? "html") = false.
Proof. intros ->. reflexivity. Qed.

(** ** handle_crawl_result in markdown mode *)

Lemma handle_crawl_result_outcome (settings : Settings) (r : CrawlResult) :
  handle_crawl_result settings (PyCrawlResult r) = handle_outcome settings r.
Proof. reflexivity. Qed.

Section MarkdownMode.

Variable settings : Settings.
Hypothesis markdown_mode : content_type settings = "markdown".

(** C1: an outcome with success flag true, a truthy markdown object and a
    non-empty extracted-content field is normalised, in markdown mode, to
    the error result "The crawler failed to extract any valid content.":
    the extracted content is never returned. *)
Theorem pre_extracted_content_is_an_error (r : CrawlResult) (extracted : string) :
  cr_success r = true ->
  truthy_markdown (cr_markdown r) = true ->
  cr_extracted_content r = Some extracted ->
  extracted <> "" ->
  handle_crawl_result settings (PyCrawlResult r)
  = Ok (mkMCPCrawlResult error None None
          (Some "The crawler failed to extract any valid content.")).
Proof.
  intros Hok Hmd Hext Hne.
  rewrite handle_crawl_result_outcome. unfold handle_outcome.
  rewrite Hok, Hmd, (html_mode_eqb _ markdown_mode).
  rewrite (or_str_truthy "" Hext Hne).
  apply truthy_str_nonempty in Hne. now rewrite Hne.
Qed.

(** C5: an outcome with success flag true, empty extracted content and a
    truthy markdown object is normalised, in markdown mode, to a success
    result whose content is the "fit" variant when that is non-empty and
    the "raw" variant otherwise. *)
Theorem markdown_fit_then_raw (r : CrawlResult) (md : MarkdownGenerationResult) :
  cr_success r = true ->
  cr_extracted_content r = None \/ cr_extracted_content r = Some "" ->
  cr_markdown r = Some md ->
  md_bool md = true ->
  exists c,
    handle_crawl_result settings (PyCrawlResult r)
    = Ok (mkMCPCrawlResult success (Some (cr_url r)) c None)
    /\ (forall fit, fit_markdown md = Some fit -> fit <> "" -> c = Some fit)
    /\ (fit_markdown md = None \/ fit_markdown md = Some "" ->
        c = raw_markdown md).
Proof.
  intros Hok Hext Hmd Hbool.
  exists (or_opt (fit_markdown md) (raw_markdown md)). split; [|split].
  - rewrite handle_crawl_result_outcome. unfold handle_outcome.
    rewrite Hok, (html_mode_eqb _ markdown_mode), Hmd.
    cbn [truthy_markdown andb]. rewrite Hbool, (or_str_falsy "" Hext).
    reflexivity.
  - intros fit Hfit Hne. now apply or_opt_truthy.
  - apply or_opt_falsy.
Qed.

End MarkdownMode.

(** ** handle_crawl_result in any mode *)

(** C4: in html mode an outcome with success flag true is normalised to a
    success result carrying the outcome's url and its raw HTML body as it
    is, be it a string, the empty string or [None]. *)
Theorem html_mode_returns_body (settings : Settings) (r : CrawlResult) :
  cr_success r = true ->
  content_type settings = "html" ->
  handle_crawl_result settings (PyCrawlResult r)
  = Ok (mkMCPCrawlResult success (Some (cr_url r)) (cr_html r) None).
Proof.
  intros Hok Hhtml. rewrite handle_crawl_result_outcome.
  unfold handle_outcome. now rewrite Hok, Hhtml.
Qed.

(** C6: an outcome with success flag false is normalised to an error result
    without url and content, whose message is the outcome's own message
    when that is non-empty and "Unknown crawl error." when it is empty or
    [None]. *)
Theorem failed_outcome_is_an_error (settings : Settings) (r : CrawlResult) :
  cr_success r = false ->
  exists msg,
    handle_crawl_result settings (PyCrawlResult r)
    = Ok (mkMCPCrawlResult error None None (Some msg))
    /\ (forall s, cr_error_message r = Some s -> s <> "" -> msg = s)
    /\ (cr_error_message r = None \/ cr_error_message r = Some "" ->
        msg = "Unknown crawl error.").
Proof.
  intros Hfail.
  exists (or_str (cr_error_message r) unknown_crawl_error). split; [|split].
  - rewrite handle_crawl_result_outcome. unfold handle_outcome.
    now rewrite Hfail.
  - intros s. apply or_str_truthy.
  - apply or_str_falsy.
Qed.

(** C7: a container whose first element is an outcome object is normalised
    exactly as that outcome object passed directly, whatever follows it in
    the container (nothing, for a container of one). *)
Theorem container_is_its_first_element
        (settings : Settings) (r : CrawlResult) (rest : list PyValue) :
  handle_crawl_result settings (PyContainer (PyCrawlResult r :: rest))
  = handle_crawl_result settings (PyCrawlResult r).
Proof. reflexivity. Qed.

(** ** Totality and the shape of the result *)

(** The if/elif chain always builds a result: the attribute access on the
    markdown object is guarded by the truth value of that object. *)
Lemma handle_outcome_returns (settings : Settings) (r : CrawlResult) :
  exists res, handle_outcome settings r = Ok res.
Proof.
  unfold handle_outcome.
  destruct (cr_success r && (content_type settings =? "html")); [eauto|].
  destruct (cr_success r && truthy_markdown (cr_markdown r)) eqn:Hmd;
    [|eauto].
  destruct (negb (truthy_str (or_str (cr_extracted_content r) ""))
            && truthy_markdown (cr_markdown r)); [|eauto].
  destruct (cr_markdown r) as [md|]; [eauto|].
  apply andb_true_iff in Hmd as [_ Hmd]. discriminate.
Qed.

Lemma Ok_injective {A} (a b : A) : Ok a = Ok b -> a = b.
Proof. now injection 1. Qed.

(** C2 (amended): on every input value other than an empty container --
    an outcome object, a container with at least one element, or any
    unrelated value -- [handle_crawl_result] returns exactly one
    [MCPCrawlResult] and does not raise. *)
Theorem handle_crawl_result_returns (settings : Settings) (v : PyValue) :
  v <> PyContainer [] ->
  exists! res, handle_crawl_result settings v = Ok res.
Proof.
  intros Hne.
  assert (exists res, handle_crawl_result settings v = Ok res) as [res E].
  { destruct v as [r | [|first rest] | items ending | t].
    - apply handle_outcome_returns.
    - now contradiction Hne.
    - destruct first; try (eexists; reflexivity).
      apply handle_outcome_returns.
    - eexists; reflexivity.
    - eexists; reflexivity. }
  exists res. split; [exact E|].
  intros res' E'. rewrite E in E'. now apply Ok_injective.
Qed.

(** C2 (counterexample): indexing an empty container raises [IndexError];
    no result is returned. *)
Lemma empty_container_raises :
  handle_crawl_result default_settings (PyContainer []) = Raise IndexError
  /\ ~ exists res,
         handle_crawl_result default_settings (PyContainer []) = Ok res.
Proof.
  split; [reflexivity|]. intros [res E]. discriminate E.
Qed.

(** Every result of the if/elif chain, classified by its status. *)
Lemma handle_outcome_shape (settings : Settings) (r : CrawlResult)
      (res : MCPCrawlResult) :
  handle_outcome settings r = Ok res ->
  (status res = error ->
   url res = None /\ content res = None /\ error_message res <> None)
  /\ (status res = success ->
      url res = Some (cr_url r) /\ error_message res = None
      /\ (content res = None ->
          (content_type settings = "html" /\ cr_html r = None)
          \/ (content_type settings <> "html"
              /\ exists md, cr_markdown r = Some md
                            /\ raw_markdown md = None))).
Proof.
  unfold handle_outcome.
  destruct (cr_success r); cbn [andb].
  - destruct (content_type settings =? "html") eqn:Hct.
    + apply String.eqb_eq in Hct.
      intros E. apply Ok_injective in E. subst res. cbn.
      split; [discriminate|]. intros _. repeat split. intros H. now left.
    + apply String.eqb_neq in Hct.
      destruct (cr_markdown r) as [md|] eqn:Hmd; cbn [truthy_markdown].
      * destruct (md_bool md); cbn [andb].
        -- rewrite andb_true_r.
           destruct (negb (truthy_str (or_str (cr_extracted_content r) ""))).
           ++ intros E. apply Ok_injective in E. subst res. cbn.
              split; [discriminate|]. intros _. repeat split.
              intros Hnone. right. split; [exact Hct|].
              exists md. split; [reflexivity|].
              unfold or_opt in Hnone.
              destruct (truthy_opt (fit_markdown md)) eqn:Hfit;
                [|exact Hnone].
              rewrite Hnone in Hfit. discriminate.
           ++ intros E. apply Ok_injective in E. subst res. cbn.
              split; [|discriminate]. intros _. repeat split. discriminate.
        -- intros E. apply Ok_injective in E. subst res. cbn.
           split; [|discriminate]. intros _. repeat split. discriminate.
      * intros E. apply Ok_injective in E. subst res. cbn.
        split; [|discriminate]. intros _. repeat split. discriminate.
  - intros E. apply Ok_injective in E. subst res. cbn.
    split; [|discriminate]. intros _. repeat split. discriminate.
Qed.

(** A returned result comes from the if/elif chain on the normalised
    outcome, or is the error result for an unexpected type. *)
Lemma handle_crawl_result_cases
      (settings : Settings) (v : PyValue) (res : MCPCrawlResult) :
  handle_crawl_result settings v = Ok res ->
  (exists r, outcome_of v = Some r /\ handle_outcome settings r = Ok res)
  \/ (exists msg, res = error_result msg).
Proof.
  destruct v as [r | [|[r | inner | items ending | t] rest]
                   | items ending | t];
    cbn; intros E;
    try discriminate E;
    try (left; exists r; now split);
    right; apply Ok_injective in E; subst res; eexists; reflexivity.
Qed.

(** C3 (amended): every result [handle_crawl_result] returns has, when its
    status is "error", no url, no content and an error message; and, when
    its status is "success", the url of the normalised outcome, no error
    message, and a content that is absent only when the field it is copied
    from is [None]: the raw HTML body in html mode, the markdown object's
    raw variant otherwise. *)
Theorem handle_crawl_result_shape
        (settings : Settings) (v : PyValue) (res : MCPCrawlResult) :
  handle_crawl_result settings v = Ok res ->
  (status res = error ->
   url res = None /\ content res = None /\ error_message res <> None)
  /\ (status res = success ->
      exists r,
        outcome_of v = Some r
        /\ url res = Some (cr_url r) /\ error_message res = None
        /\ (content res = None ->
            (content_type settings = "html" /\ cr_html r = None)
            \/ (content_type settings <> "html"
                /\ exists md, cr_markdown r = Some md
                              /\ raw_markdown md = None))).
Proof.
  intros E. apply handle_crawl_result_cases in E as [(r & Hv & E) | (msg & ->)].
  - apply handle_outcome_shape in E as [Herr Hsucc].
    split; [exact Herr|]. intros Hs. exists r. split; [exact Hv|].
    now apply Hsucc.
  - cbn. split; [|discriminate]. intros _. repeat split. discriminate.
Qed.

(** C3 (counterexample): in html mode a successful outcome whose HTML body
    is [None] is normalised to a success result without content, which
    breaks the invariant as stated. *)
Lemma success_without_content :
  exists res,
    handle_crawl_result (with_content_type "html")
      (PyCrawlResult (mock_crawl_result true "http://x" None None None None))
    = Ok res
    /\ status res = success /\ content res = None
    /\ shape_invariant res = false.
Proof. eexists. repeat split. Qed.

(** ** Consuming the asynchronous sequence *)

(** The loop makes no call on the session. *)
Lemma async_for_trace (settings : Settings)
      (items : list PyValue) (ending : option Exc) (fr : Frame) :
  trace (fst (async_for items ending (normalise_and_append settings) fr))
  = trace fr.
Proof.
  revert fr. induction items as [|page_result rest IH]; intros fr.
  - destruct ending; reflexivity.
  - cbn [async_for]. unfold Stmt.seq, normalise_and_append at 1.
    destruct (handle_crawl_result settings page_result) as [res|e]; cbn.
    + now rewrite IH.
    + reflexivity.
Qed.

Lemma consume_trace (settings : Settings) (pages : PyValue) (fr : Frame) :
  trace (fst (consume settings pages fr)) = trace fr.
Proof.
  destruct pages; try reflexivity.
  apply (async_for_trace settings).
Qed.

(** When every yielded element normalises, the loop appends the normalised
    results in order and completes as the sequence ends. *)
Lemma async_for_appends (settings : Settings)
      (items : list PyValue) (ending : option Exc)
      (rs : list MCPCrawlResult) :
  Forall2 (fun page_result res =>
             handle_crawl_result settings page_result = Ok res) items rs ->
  forall fr,
    async_for items ending (normalise_and_append settings) fr
    = (mkFrame (trace fr) (results fr ++ rs),
       match ending with
       | None => Normal
       | Some e => Throw e
       end).
Proof.
  induction 1 as [|page_result res rest rs' Hres _ IH]; intros [tr acc].
  - cbn. rewrite app_nil_r. destruct ending; reflexivity.
  - cbn [async_for]. unfold Stmt.seq, normalise_and_append at 1.
    rewrite Hres. cbn. rewrite IH. cbn. now rewrite <- app_assoc.
Qed.

(** ** crawl *)

Ltac run_tool :=
  unfold run, run_search, crawl, deep_crawl, google_search,
    async_with, async_with_session, with_redirect_stdout,
    await, await_call, await_unit, await_call_unit, try_except, try_finally;
  unfold Stmt.seq, log, log_call, results_init, results_append, ret_with,
    modify, initial_frame;
  cbn.

(** C8 (amended): when the session is constructed, entered and left
    without an exception, stdout is redirected, and the sequence returned
    by [arun_many] yields elements that each normalise and then raises an
    instance of [Exception], [crawl] does not raise: it returns the
    normalised results, in order and as they were, followed by one error
    result carrying the exception's message. *)
Theorem crawl_keeps_partial_results
        (settings : Settings) (proc : Process) (crawler : AsyncWebCrawler)
        (urls : list string) (items : list PyValue) (e : Exc)
        (rs : list MCPCrawlResult) :
  new_crawler proc = Ok crawler ->
  aenter crawler = None ->
  redirect_stdout proc = None ->
  aexit crawler = None ->
  arun_many crawler urls (crawl_config settings)
  = Ok (PyAsyncIterator items (Some e)) ->
  exc_is_Exception e = true ->
  Forall2 (fun page_result res =>
             handle_crawl_result settings page_result = Ok res) items rs ->
  snd (run (crawl settings proc urls))
  = Return
      (rs ++ [mkMCPCrawlResult error None None
                (Some ("An unexpected error occurred during crawl: "
                         ++ exc_str e)%string)]).
Proof.
  intros Hnew Henter Hredirect Hexit Hpages Hexc Hitems.
  run_tool. rewrite Hnew. cbn.
  rewrite Henter, Hredirect, Hexit, Hpages. cbn.
  rewrite (@async_for_appends settings items (Some e) rs Hitems). cbn.
  now rewrite Hexc.
Qed.

(** C8 (counterexample): a sequence that yields one page and is then
    cancelled makes [crawl] raise, the page is not returned; and when the
    sequence raises "boom" after one page and [__aexit__] raises too, the
    trailing error carries the message of [__aexit__], not "boom". *)
Lemma crawl_does_not_recover_every_raise :
  snd (run (crawl default_settings
              (process_with
                 (mock_crawler
                    (Ok (PyAsyncIterator [page "http://a" "A"]
                                         (Some cancelled)))))
              ["http://a"; "http://b"]))
  = Throw cancelled
  /\ snd (run (crawl default_settings
                 (process_with
                    (scoped_crawler None
                       (Some (plain_exception "close failed"))
                       (Ok (PyAsyncIterator [page "http://a" "A"]
                              (Some (plain_exception "boom"))))))
                 ["http://a"; "http://b"]))
     = Return
         [mkMCPCrawlResult success (Some "http://a") (Some "A") None;
          mkMCPCrawlResult error None None
            (Some "An unexpected error occurred during crawl: close failed")].
Proof. split; reflexivity. Qed.

(** ** deep_crawl *)

(** The calls made on a constructed session: [arun] unless the
    redirection raised, then [close]. *)
Lemma deep_crawl_calls
      (settings : Settings) (proc : Process) (crawler : AsyncWebCrawler)
      (url : string) (keywords : option (list string)) :
  new_crawler proc = Ok crawler ->
  trace (fst (run (deep_crawl settings proc url keywords)))
  = match redirect_stdout proc with
    | Some _ => [EvCreate; EvClose]
    | None => [EvCreate; EvArun url; EvClose]
    end.
Proof.
  intros Hnew. run_tool. rewrite Hnew. cbn.
  destruct (redirect_stdout proc) as [e|]; cbn.
  - destruct (exc_is_Exception e); cbn; destruct (close crawler); reflexivity.
  - destruct (arun crawler url (deep_crawl_config settings keywords))
      as [pages|e]; cbn.
    + pose proof (consume_trace settings pages
                    (mkFrame [EvCreate; EvArun url] [])) as Htrace.
      destruct (consume settings pages _) as [fr [|early|e]];
        cbn in Htrace |- *;
        try destruct (exc_is_Exception e); cbn;
        destruct (close crawler); cbn; now rewrite Htrace.
    + destruct (exc_is_Exception e); cbn;
        destruct (close crawler); reflexivity.
Qed.

(** C9: on every execution of [deep_crawl] in which the session is
    constructed -- whether the redirection of stdout raises, whatever
    [arun] returns or raises, whatever the sequence yields or raises,
    whether or not the exception is caught, whether or not [close] itself
    raises -- [close] is called exactly once, and it is the last call made
    on the session. *)
Theorem deep_crawl_releases_once
        (settings : Settings) (proc : Process) (crawler : AsyncWebCrawler)
        (url : string) (keywords : option (list string)) :
  new_crawler proc = Ok crawler ->
  let calls := trace (fst (run (deep_crawl settings proc url keywords))) in
  length (filter is_close calls) = 1
  /\ exists before, calls = before ++ [EvClose].
Proof.
  intros Hnew calls. subst calls.
  rewrite (@deep_crawl_calls settings proc crawler url keywords Hnew).
  destruct (redirect_stdout proc); split; try reflexivity.
  - now exists [EvCreate].
  - now exists [EvCreate; EvArun url].
Qed.


(** ** The entry points return *)

(** What [handle_crawl_result] raises is an [Exception]. *)
Lemma handle_crawl_result_raises_Exception
      (settings : Settings) (v : PyValue) (e : Exc) :
  handle_crawl_result settings v = Raise e -> exc_is_Exception e = true.
Proof.
  assert (Hout : forall r, handle_outcome settings r = Raise e -> False).
  { intros r E. destruct (handle_outcome_returns settings r) as [res E'].
    rewrite E' in E. discriminate. }
  destruct v as [r | [|[r | inner | items ending | t] rest]
                   | items ending | t];
    cbn; intros E; try discriminate E;
    try (exfalso; now apply (Hout r)).
  injection E as <-. reflexivity.
Qed.

(** The loop never completes by [return]; what it raises is an [Exception]
    or the exception the sequence ended with. *)
Lemma async_for_completion (settings : Settings)
      (items : list PyValue) (ending : option Exc) (fr : Frame) :
  match snd (async_for items ending (normalise_and_append settings) fr) with
  | Normal => True
  | Return _ => False
  | Throw e => ending = Some e \/ exc_is_Exception e = true
  end.
Proof.
  revert fr. induction items as [|page_result rest IH]; intros fr.
  - destruct ending; cbn; auto.
  - cbn [async_for]. unfold Stmt.seq, normalise_and_append at 1.
    destruct (handle_crawl_result settings page_result) as [res|e] eqn:E;
      cbn.
    + apply IH.
    + right. exact (handle_crawl_result_raises_Exception _ _ E).
Qed.

(** [deep_crawl] returns a list, and does not raise, when the session is
    constructed, [close] does not raise and the exceptions of the
    redirection, of [arun] and of the sequence are [Exception]s. *)
Lemma deep_crawl_returns
      (settings : Settings) (proc : Process) (crawler : AsyncWebCrawler)
      (url : string) (keywords : option (list string)) :
  new_crawler proc = Ok crawler ->
  close crawler = None ->
  (forall e, redirect_stdout proc = Some e -> exc_is_Exception e = true) ->
  (forall e, arun crawler url (deep_crawl_config settings keywords) = Raise e ->
             exc_is_Exception e = true) ->
  (forall items e,
      arun crawler url (deep_crawl_config settings keywords)
      = Ok (PyAsyncIterator items (Some e)) ->
      exc_is_Exception e = true) ->
  exists rs, snd (run (deep_crawl settings proc url keywords)) = Return rs.
Proof.
  intros Hnew Hclose Hredirect Hcall Hseq.
  run_tool. rewrite Hnew. cbn. rewrite Hclose.
  destruct (redirect_stdout proc) as [e|]; cbn.
  { rewrite (Hredirect e eq_refl). cbn. eexists; reflexivity. }
  destruct (arun crawler url (deep_crawl_config settings keywords))
    as [pages|e] eqn:Hrun; cbn.
  - destruct pages as [r | inner | items ending | t];
      try (eexists; reflexivity).
    cbn [consume].
    pose proof (async_for_completion settings items ending
                  (mkFrame [EvCreate; EvArun url] [])) as Hc.
    destruct (async_for items ending _ _) as [fr [|early|e]]; cbn in Hc |- *.
    + eexists; reflexivity.
    + contradiction.
    + assert (exc_is_Exception e = true) as ->.
      { destruct Hc as [-> | He]; [|exact He]. now apply (Hseq items). }
      cbn. eexists; reflexivity.
  - rewrite (Hcall e eq_refl). cbn. eexists; reflexivity.
Qed.

(** ** main.py *)

(** The flag accepts exactly the two choices. *)
Lemma transport_accepts (value : string) :
  Cli.transport_option (Some value) = Some value
  <-> value = "stdio" \/ value = "html".
Proof.
  unfold Cli.transport_option, Cli.choice, Cli.transport_choices.
  cbn [existsb]. rewrite orb_false_r.
  destruct (String.eqb_spec value "stdio") as [->|Hstdio];
    [cbn; split; auto|].
  destruct (String.eqb_spec value "html") as [->|Hhtml];
    [cbn; split; auto|].
  cbn. split; [discriminate | intros [H|H]; contradiction].
Qed.

Lemma transport_rejects (value : string) :
  value <> "stdio" -> value <> "html" ->
  Cli.transport_option (Some value) = None.
Proof.
  intros Hstdio Hhtml.
  apply String.eqb_neq in Hstdio. apply String.eqb_neq in Hhtml.
  unfold Cli.transport_option, Cli.choice, Cli.transport_choices.
  cbn [existsb]. now rewrite Hstdio, Hhtml.
Qed.

Lemma transport_defaults_to_stdio :
  Cli.transport_option None = Some "stdio"
  /\ Cli.command None = Some "stdio".
Proof. split; reflexivity. Qed.

(** Whatever flag the command accepts, the server runs over stdio: the
    value [main] compares against is not one of the choices. *)
Lemma command_always_stdio (flag : option string) (transport : string) :
  Cli.command flag = Some transport -> transport = "stdio".
Proof.
  unfold Cli.command. destruct flag as [value|]; cbn [Cli.transport_option].
  - unfold Cli.choice, Cli.transport_choices. cbn [existsb].
    rewrite orb_false_r.
    destruct (String.eqb_spec value "stdio") as [->|Hstdio].
    + intros E. now injection E.
    + destruct (String.eqb_spec value "html") as [->|Hhtml].
      * intros E. now injection E.
      * discriminate.
  - intros E. now injection E.
Qed.

(** C10: with [--transport html], the one choice other than the default,
    the command hands "stdio" to [app.run], not "streamable-http": [main]
    tests [transport == "http"], and "http" is not a choice of the flag. *)
Theorem html_transport_runs_stdio :
  Cli.transport_option (Some "html") = Some "html"
  /\ Cli.command (Some "html") = Some "stdio"
  /\ Cli.command (Some "html") <> Some "streamable-http"
  /\ Cli.main "http" = "streamable-http"
  /\ Cli.transport_option (Some "http") = None.
Proof. repeat split. discriminate. Qed.

(** ** Runs on concrete inputs, after tests/test_server.py *)

Example test_success_markdown_crawlresult :
  handle_crawl_result (with_content_type "markdown")
    (page "http://test.com" "Fit markdown content")
  = Ok (mkMCPCrawlResult success (Some "http://test.com")
          (Some "Fit markdown content") None).
Proof. reflexivity. Qed.

Example test_success_raw_markdown_crawlresult :
  handle_crawl_result (with_content_type "markdown")
    (PyCrawlResult
       (mock_crawl_result true "http://test.com" None
          None (Some "Raw markdown content") None))
  = Ok (mkMCPCrawlResult success (Some "http://test.com")
          (Some "Raw markdown content") None).
Proof. reflexivity. Qed.

Example test_success_html_crawlresult :
  handle_crawl_result (with_content_type "html")
    (PyCrawlResult
       (mock_crawl_result true "http://test.com"
          (Some "<html>Html content</html>") None None None))
  = Ok (mkMCPCrawlResult success (Some "http://test.com")
          (Some "<html>Html content</html>") None).
Proof. reflexivity. Qed.

Example test_failed_crawlresult_no_message :
  handle_crawl_result default_settings
    (PyCrawlResult
       (mock_crawl_result false "http://test.com" None None None None))
  = Ok (error_result "Unknown crawl error.").
Proof. reflexivity. Qed.

Example test_unexpected_result_type :
  handle_crawl_result default_settings (PyOther "<class 'str'>")
  = Ok (error_result "Unexpected result type from crawler: <class 'str'>").
Proof. reflexivity. Qed.

Example test_deep_crawl_arun_not_async_iterator :
  run (deep_crawl default_settings
         (process_with (mock_crawler (Ok (PyOther "<class 'str'>"))))
         "http://testsite.com" None)
  = (mkFrame [EvCreate; EvArun "http://testsite.com"; EvClose] [],
     Return
       [error_result
          "Expected an AsyncIterator instance from arun, got: <class 'str'>"]).
Proof. reflexivity. Qed.

Example test_deep_crawl_exception :
  run (deep_crawl default_settings
         (process_with
            (mock_crawler (Raise (plain_exception "Deep crawl error"))))
         "http://error.com" None)
  = (mkFrame [EvCreate; EvArun "http://error.com"; EvClose]
       [error_result "An error occurred during deep crawl: Deep crawl error"],
     Return
       [error_result
          "An error occurred during deep crawl: Deep crawl error"]).
Proof. reflexivity. Qed.

Example test_deep_crawl_raises_mid_traversal :
  run (deep_crawl default_settings
         (process_with
            (mock_crawler
               (Ok (PyAsyncIterator [page "http://site.com/page1" "Page 1"]
                                    (Some (plain_exception "lost"))))))
         "http://testsite.com" (Some ["keyword1"]))
  = (mkFrame [EvCreate; EvArun "http://testsite.com"; EvClose]
       [mkMCPCrawlResult success (Some "http://site.com/page1")
          (Some "Page 1") None;
        error_result "An error occurred during deep crawl: lost"],
     Return
       [mkMCPCrawlResult success (Some "http://site.com/page1")
          (Some "Page 1") None;
        error_result "An error occurred during deep crawl: lost"]).
Proof. reflexivity. Qed.

Example test_crawl_exception :
  snd (run (crawl default_settings
              (process_with
                 (mock_crawler (Raise (plain_exception "Crawl many error"))))
              ["http://error.com"]))
  = Return
      [error_result
         "An unexpected error occurred during crawl: Crawl many error"].
Proof. reflexivity. Qed.

(** A call made once [sys.stderr.buffer] is closed: the redirection raises
    before the crawler is asked for anything. *)

Example crawl_without_stderr :
  run (crawl default_settings
         (process_without_stderr
            (mock_crawler
               (Ok (PyAsyncIterator [page "http://a" "A"] None))))
         ["http://a"])
  = (mkFrame [EvCreate; EvEnter; EvExit]
       [error_result
          "An unexpected error occurred during crawl: I/O operation on closed file"],
     Return
       [error_result
          "An unexpected error occurred during crawl: I/O operation on closed file"]).
Proof. reflexivity. Qed.

Example deep_crawl_without_stderr :
  run (deep_crawl default_settings
         (process_without_stderr
            (mock_crawler
               (Ok (PyAsyncIterator [page "http://a" "A"] None))))
         "http://a" None)
  = (mkFrame [EvCreate; EvClose]
       [error_result
          "An error occurred during deep crawl: I/O operation on closed file"],
     Return
       [error_result
          "An error occurred during deep crawl: I/O operation on closed file"]).
Proof. reflexivity. Qed.

Example google_search_without_stderr :
  run_search (google_search quote_unreserved default_settings
                (process_without_stderr
                   (mock_crawler (Ok (page "http://a" "A"))))
                "test")
  = (mkFrame [EvCreate; EvEnter; EvExit] [],
     Return
       (error_result
          "An error occurred during Google search: I/O operation on closed file")).
Proof. reflexivity. Qed.

(** ** The theorems at concrete inputs *)

Lemma pre_extracted_content_is_an_error_at_sample :
  handle_crawl_result (with_content_type "markdown")
    (PyCrawlResult pre_extracted)
  = Ok (mkMCPCrawlResult error None None
          (Some "The crawler failed to extract any valid content.")).
Proof.
  apply (@pre_extracted_content_is_an_error
           (with_content_type "markdown") eq_refl pre_extracted "{}");
    try reflexivity.
  discriminate.
Defined.

Lemma markdown_fit_then_raw_at_sample :
  exists c,
    handle_crawl_result (with_content_type "markdown")
      (PyCrawlResult
         (mock_crawl_result true "http://x" None (Some "A") (Some "B") None))
    = Ok (mkMCPCrawlResult success (Some "http://x") c None)
    /\ (forall fit, Some "A" = Some fit -> fit <> "" -> c = Some fit)
    /\ (Some "A" = None \/ Some "A" = Some "" -> c = Some "B").
Proof.
  apply (@markdown_fit_then_raw
           (with_content_type "markdown") eq_refl
           (mock_crawl_result true "http://x" None (Some "A") (Some "B") None)
           (mkMarkdown true (Some "A") (Some "B")));
    try reflexivity.
  left. reflexivity.
Defined.

Lemma html_mode_returns_body_at_sample :
  handle_crawl_result (with_content_type "html")
    (PyCrawlResult
       (mock_crawl_result true "http://x" (Some "") (Some "A") None None))
  = Ok (mkMCPCrawlResult success (Some "http://x") (Some "") None).
Proof.
  apply (@html_mode_returns_body (with_content_type "html")
           (mock_crawl_result true "http://x" (Some "") (Some "A") None None));
    reflexivity.
Defined.

Lemma failed_outcome_is_an_error_at_sample :
  exists msg,
    handle_crawl_result default_settings
      (PyCrawlResult
         (mock_crawl_result false "http://x" None None None (Some "")))
    = Ok (mkMCPCrawlResult error None None (Some msg))
    /\ (forall s, Some "" = Some s -> s <> "" -> msg = s)
    /\ (Some "" = None \/ Some "" = Some "" -> msg = "Unknown crawl error.").
Proof.
  apply (@failed_outcome_is_an_error default_settings
           (mock_crawl_result false "http://x" None None None (Some ""))).
  reflexivity.
Defined.

Lemma handle_crawl_result_returns_at_sample :
  exists! res,
    handle_crawl_result default_settings (PyOther "<class 'str'>") = Ok res.
Proof.
  apply (@handle_crawl_result_returns default_settings
           (PyOther "<class 'str'>")).
  discriminate.
Defined.

Lemma handle_crawl_result_shape_at_sample :
  (status (mkMCPCrawlResult success (Some "http://x") (Some "A") None) = error
   -> Some "http://x" = None /\ Some "A" = None
      /\ @None string <> None)
  /\ (status (mkMCPCrawlResult success (Some "http://x") (Some "A") None)
      = success ->
      exists r,
        outcome_of (page "http://x" "A") = Some r
        /\ Some "http://x" = Some (cr_url r) /\ @None string = None
        /\ (Some "A" = None ->
            (content_type (with_content_type "markdown") = "html"
             /\ cr_html r = None)
            \/ (content_type (with_content_type "markdown") <> "html"
                /\ exists md, cr_markdown r = Some md
                              /\ raw_markdown md = None))).
Proof.
  apply (@handle_crawl_result_shape (with_content_type "markdown")
           (page "http://x" "A")
           (mkMCPCrawlResult success (Some "http://x") (Some "A") None)).
  reflexivity.
Defined.

Lemma crawl_keeps_partial_results_at_sample :
  snd (run (crawl default_settings
              (process_with
                 (mock_crawler
                    (Ok (PyAsyncIterator [page "http://a" "A"]
                                         (Some (plain_exception "boom"))))))
              ["http://a"; "http://b"]))
  = Return
      ([mkMCPCrawlResult success (Some "http://a") (Some "A") None]
         ++ [mkMCPCrawlResult error None None
               (Some ("An unexpected error occurred during crawl: "
                        ++ "boom")%string)]).
Proof.
  apply (@crawl_keeps_partial_results default_settings
           (process_with
              (mock_crawler
                 (Ok (PyAsyncIterator [page "http://a" "A"]
                                      (Some (plain_exception "boom"))))))
           (mock_crawler
              (Ok (PyAsyncIterator [page "http://a" "A"]
                                   (Some (plain_exception "boom")))))
           ["http://a"; "http://b"] [page "http://a" "A"]
           (plain_exception "boom")
           [mkMCPCrawlResult success (Some "http://a") (Some "A") None]);
    try reflexivity.
  constructor; [reflexivity | constructor].
Defined.

Lemma deep_crawl_releases_once_at_sample :
  length (filter is_close
            (trace (fst (run (deep_crawl default_settings
                                (process_without_stderr
                                   (mock_crawler
                                      (Ok (PyAsyncIterator
                                             [page "http://a" "A"] None))))
                                "http://a" None)))))
  = 1
  /\ exists before,
       trace (fst (run (deep_crawl default_settings
                          (process_without_stderr
                             (mock_crawler
                                (Ok (PyAsyncIterator
                                       [page "http://a" "A"] None))))
                          "http://a" None)))
       = before ++ [EvClose].
Proof.
  exact (@deep_crawl_releases_once default_settings
           (process_without_stderr
              (mock_crawler
                 (Ok (PyAsyncIterator [page "http://a" "A"] None))))
           (mock_crawler (Ok (PyAsyncIterator [page "http://a" "A"] None)))
           "http://a" None eq_refl).
Defined.

(** * Further properties *)

(** ** handle_crawl_result: what decides the result *)

Lemma handle_crawl_result_of_outcome
      (settings : Settings) (v : PyValue) (r : CrawlResult) :
  outcome_of v = Some r ->
  handle_crawl_result settings v = handle_outcome settings r.
Proof.
  destruct v as [r' | [|[r' | inner | items ending | t] rest]
                   | items ending | t];
    cbn; intros E; try discriminate E; now injection E as ->.
Qed.

Lemma not_html_eqb (settings : Settings) :
  content_type settings <> "html" ->
  (content_type settings =? "html") = false.
Proof. apply String.eqb_neq. Qed.

(** X1: a container is unwrapped once and only its first element is looked
    at: when that element is not an outcome object -- another container,
    even one that holds outcomes, an iterator, or anything else -- the
    result is the error "Unexpected result type from crawler: " followed by
    the type of that element; the same error is returned for such a value
    passed directly, unless it is a container. *)
Theorem unexpected_type_is_reported
        (settings : Settings) (v : PyValue) (rest : list PyValue) :
  (forall r, v <> PyCrawlResult r) ->
  handle_crawl_result settings (PyContainer (v :: rest))
  = Ok (mkMCPCrawlResult error None None
          (Some ("Unexpected result type from crawler: "
                   ++ type_repr_of v)%string))
  /\ ((forall inner, v <> PyContainer inner) ->
      handle_crawl_result settings v
      = Ok (mkMCPCrawlResult error None None
              (Some ("Unexpected result type from crawler: "
                       ++ type_repr_of v)%string))).
Proof.
  intros Hnot.
  destruct v as [r | inner | items ending | t].
  - now contradiction (Hnot r).
  - split; [reflexivity|]. intros Hc. now contradiction (Hc inner).
  - split; reflexivity.
  - split; reflexivity.
Qed.

(** X2: outside html mode, an outcome whose extracted-content field is
    non-empty is never normalised to a success: whatever its success flag
    and its markdown, directly or as the first element of a container, the
    result has status "error" and no content. *)
Theorem extracted_content_never_succeeds
        (settings : Settings) (v : PyValue) (r : CrawlResult)
        (extracted : string) (res : MCPCrawlResult) :
  content_type settings <> "html" ->
  outcome_of v = Some r ->
  cr_extracted_content r = Some extracted ->
  extracted <> "" ->
  handle_crawl_result settings v = Ok res ->
  status res = error /\ content res = None.
Proof.
  intros Hct Hv Hext Hne.
  rewrite (handle_crawl_result_of_outcome settings _ Hv).
  unfold handle_outcome.
  rewrite (not_html_eqb _ Hct), andb_false_r.
  rewrite (or_str_truthy "" Hext Hne).
  apply truthy_str_nonempty in Hne. rewrite Hne. cbn [negb andb].
  destruct (cr_success r && truthy_markdown (cr_markdown r));
    intros E; apply Ok_injective in E; subst res; split; reflexivity.
Qed.

(** X3: of the settings, only whether content_type is exactly "html"
    reaches the result: two settings that agree on that test normalise
    every value alike, so any other content type ("markdown", "HTML",
    "text", ...) behaves as "markdown" does. *)
Theorem only_the_html_test_matters
        (s1 s2 : Settings) (v : PyValue) :
  (content_type s1 =? "html") = (content_type s2 =? "html") ->
  handle_crawl_result s1 v = handle_crawl_result s2 v.
Proof.
  intros Hsame.
  assert (Hout : forall r, handle_outcome s1 r = handle_outcome s2 r).
  { intros r. unfold handle_outcome. now rewrite Hsame. }
  destruct v as [r | [|[r | inner | items ending | t] rest]
                   | items ending | t];
    cbn; try reflexivity; apply Hout.
Qed.

(** X4: a result has status "success" only for an outcome whose success
    flag is true; outside html mode the outcome also has a truthy markdown
    object and an empty extracted-content field, and the content is the
    fit variant or, failing that, the raw one. *)
Theorem success_status_needs_success_flag
        (settings : Settings) (v : PyValue) (res : MCPCrawlResult) :
  handle_crawl_result settings v = Ok res ->
  status res = success ->
  exists r,
    outcome_of v = Some r
    /\ cr_success r = true
    /\ (content_type settings = "html"
        \/ exists md,
             cr_markdown r = Some md /\ md_bool md = true
             /\ (cr_extracted_content r = None
                 \/ cr_extracted_content r = Some "")
             /\ content res = or_opt (fit_markdown md) (raw_markdown md)).
Proof.
  intros E Hs.
  apply handle_crawl_result_cases in E as [(r & Hv & E) | (msg & ->)];
    [|discriminate Hs].
  exists r. split; [exact Hv|].
  unfold handle_outcome in E.
  destruct (cr_success r); cbn [andb] in E.
  - split; [reflexivity|].
    destruct (String.eqb_spec (content_type settings) "html") as [Hct|Hct];
      [now left|right].
    destruct (cr_markdown r) as [md|]; cbn [truthy_markdown] in E.
    + destruct (md_bool md) eqn:Hbool; cbn [andb] in E.
      * rewrite andb_true_r in E.
        destruct (truthy_str (or_str (cr_extracted_content r) "")) eqn:Hext;
          cbn [negb] in E; apply Ok_injective in E; subst res;
          [discriminate Hs|].
        exists md. repeat split; [exact Hbool|].
        destruct (cr_extracted_content r) as [[|c s]|]; auto.
        cbn in Hext. discriminate Hext.
      * apply Ok_injective in E. subst res. discriminate Hs.
    + apply Ok_injective in E. subst res. discriminate Hs.
  - apply Ok_injective in E. subst res. discriminate Hs.
Qed.

(** X5: outside html mode a successful outcome without a truthy markdown
    object (no markdown at all, or one whose truth value is false) is
    reported as an error: with the outcome's own error message when it has
    a non-empty one, and with "Unknown crawl error." otherwise. *)
Theorem success_without_markdown_is_an_error
        (settings : Settings) (r : CrawlResult) :
  content_type settings <> "html" ->
  cr_success r = true ->
  truthy_markdown (cr_markdown r) = false ->
  exists msg,
    handle_crawl_result settings (PyCrawlResult r)
    = Ok (mkMCPCrawlResult error None None (Some msg))
    /\ (forall s, cr_error_message r = Some s -> s <> "" -> msg = s)
    /\ (cr_error_message r = None \/ cr_error_message r = Some "" ->
        msg = "Unknown crawl error.").
Proof.
  intros Hct Hok Hmd.
  exists (or_str (cr_error_message r) unknown_crawl_error). split; [|split].
  - rewrite handle_crawl_result_outcome. unfold handle_outcome.
    now rewrite Hok, Hmd, (not_html_eqb _ Hct).
  - intros s. apply or_str_truthy.
  - apply or_str_falsy.
Qed.

(** ** The loop over the pages *)

(** The loop stops at the first page that does not normalise: what was
    appended before stays, the exception leaves the loop, and neither the
    pages after it nor the end of the sequence are reached. *)
Lemma async_for_stops (settings : Settings)
      (before after : list PyValue) (bad : PyValue) (ending : option Exc)
      (e : Exc) (rs : list MCPCrawlResult) :
  Forall2 (fun page_result res =>
             handle_crawl_result settings page_result = Ok res) before rs ->
  handle_crawl_result settings bad = Raise e ->
  forall fr,
    async_for (before ++ bad :: after) ending (normalise_and_append settings) fr
    = (mkFrame (trace fr) (results fr ++ rs), Throw e).
Proof.
  intros Hbefore Hbad.
  induction Hbefore as [|page_result res rest rs' Hres _ IH]; intros [tr acc].
  - cbn. unfold Stmt.seq, normalise_and_append at 1. rewrite Hbad. cbn.
    now rewrite app_nil_r.
  - cbn [app async_for]. unfold Stmt.seq, normalise_and_append at 1.
    rewrite Hres. cbn. rewrite IH. cbn. now rewrite <- app_assoc.
Qed.

(** ** crawl: further properties *)

(** X6: when the session is constructed, entered and left without an
    exception, stdout is redirected, and the sequence returned by
    [arun_many] ends without raising, [crawl] returns exactly the
    normalised pages, one per yielded element and in the order they were
    yielded -- whatever the number of urls asked for. *)
Theorem crawl_returns_one_result_per_page
        (settings : Settings) (proc : Process) (crawler : AsyncWebCrawler)
        (urls : list string) (items : list PyValue)
        (rs : list MCPCrawlResult) :
  new_crawler proc = Ok crawler ->
  aenter crawler = None ->
  redirect_stdout proc = None ->
  aexit crawler = None ->
  arun_many crawler urls (crawl_config settings)
  = Ok (PyAsyncIterator items None) ->
  Forall2 (fun page_result res =>
             handle_crawl_result settings page_result = Ok res) items rs ->
  snd (run (crawl settings proc urls)) = Return rs
  /\ length rs = length items.
Proof.
  intros Hnew Henter Hredirect Hexit Hpages Hitems. split.
  - run_tool. rewrite Hnew. cbn.
    rewrite Henter, Hredirect, Hexit, Hpages. cbn.
    now rewrite (@async_for_appends settings items None rs Hitems).
  - symmetry. exact (Forall2_length Hitems).
Qed.

(** X7: once the sequence is being consumed (session constructed, entered
    and left without an exception, stdout redirected), a page that does
    not normalise -- an empty container, on which indexing raises -- ends
    [crawl]: the results of the pages before it are kept, one error result
    "An unexpected error occurred during crawl: list index out of range"
    follows, and the pages after it are dropped together with whatever the
    sequence would have done next. *)
Theorem crawl_stops_at_an_empty_container
        (settings : Settings) (proc : Process) (crawler : AsyncWebCrawler)
        (urls : list string) (before after : list PyValue)
        (ending : option Exc) (rs : list MCPCrawlResult) :
  new_crawler proc = Ok crawler ->
  aenter crawler = None ->
  redirect_stdout proc = None ->
  aexit crawler = None ->
  arun_many crawler urls (crawl_config settings)
  = Ok (PyAsyncIterator (before ++ PyContainer [] :: after) ending) ->
  Forall2 (fun page_result res =>
             handle_crawl_result settings page_result = Ok res) before rs ->
  snd (run (crawl settings proc urls))
  = Return
      (rs ++ [mkMCPCrawlResult error None None
                (Some "An unexpected error occurred during crawl: list index out of range")]).
Proof.
  intros Hnew Henter Hredirect Hexit Hpages Hbefore.
  run_tool. rewrite Hnew. cbn.
  rewrite Henter, Hredirect, Hexit, Hpages. cbn.
  now rewrite (@async_for_stops settings before after (PyContainer [])
                 ending IndexError rs Hbefore eq_refl).
Qed.

(** X8: [crawl] lets no [Exception] out: it returns a list, or raises an
    exception that is not an instance of [Exception] (a cancellation, an
    interrupt), which [except Exception] does not catch. *)
Theorem crawl_lets_no_Exception_out
        (settings : Settings) (proc : Process) (urls : list string) :
  match snd (run (crawl settings proc urls)) with
  | Normal => False
  | Return _ => True
  | Throw e => exc_is_Exception e = false
  end.
Proof.
  unfold run, crawl.
  set (body := async_with proc _).
  unfold Stmt.seq, try_except, results_init, results_append, ret_with, modify.
  destruct (body _) as [fr [|early|e]]; cbn; auto.
  destruct (exc_is_Exception e) eqn:He; cbn; auto.
Qed.

(** X9: the calls [crawl] makes on the session.  The constructor is
    called; when it raises nothing follows; when [__aenter__] raises
    nothing follows either, not even [__aexit__]; once the session is
    entered [__aexit__] is called exactly once and last, and [arun_many]
    is called before it, once and with the urls, exactly when the
    redirection of stdout did not raise. *)
Theorem crawl_scopes_the_session
        (settings : Settings) (proc : Process) (urls : list string) :
  trace (fst (run (crawl settings proc urls)))
  = match new_crawler proc with
    | Raise _ => [EvCreate]
    | Ok crawler =>
        match aenter crawler, redirect_stdout proc with
        | Some _, _ => [EvCreate; EvEnter]
        | None, Some _ => [EvCreate; EvEnter; EvExit]
        | None, None => [EvCreate; EvEnter; EvArunMany urls; EvExit]
        end
    end.
Proof.
  run_tool.
  destruct (new_crawler proc) as [crawler|e0]; cbn;
    [|destruct (exc_is_Exception e0); reflexivity].
  destruct (aenter crawler) as [e|]; cbn;
    [destruct (exc_is_Exception e); reflexivity|].
  destruct (redirect_stdout proc) as [e|]; cbn.
  { destruct (aexit crawler) as [e'|]; cbn;
      try destruct (exc_is_Exception e'); cbn;
      try destruct (exc_is_Exception e); reflexivity. }
  destruct (arun_many crawler urls (crawl_config settings))
    as [pages|e]; cbn.
  - pose proof (consume_trace settings pages
                  (mkFrame [EvCreate; EvEnter; EvArunMany urls] []))
      as Htrace.
    destruct (consume settings pages _) as [fr [|early|e]];
      cbn in Htrace |- *;
      destruct (aexit crawler) as [e'|]; cbn;
      try destruct (exc_is_Exception e'); cbn;
      try destruct (exc_is_Exception e); cbn;
      now rewrite Htrace.
  - destruct (aexit crawler) as [e'|]; cbn;
      try destruct (exc_is_Exception e'); cbn;
      try destruct (exc_is_Exception e); reflexivity.
Qed.

(** X10: when [arun_many] is reached (session constructed, entered and
    left without an exception, stdout redirected) and returns something
    that is not an asynchronous iterator -- a single outcome, a container,
    anything else -- [crawl] does not normalise it: it returns one error
    result, "Expected an AsyncIterator instance from arun, got: " followed
    by the type. *)
Theorem crawl_rejects_a_non_iterator
        (settings : Settings) (proc : Process) (crawler : AsyncWebCrawler)
        (urls : list string) (pages : PyValue) :
  new_crawler proc = Ok crawler ->
  aenter crawler = None ->
  redirect_stdout proc = None ->
  aexit crawler = None ->
  arun_many crawler urls (crawl_config settings) = Ok pages ->
  (forall items ending, pages <> PyAsyncIterator items ending) ->
  snd (run (crawl settings proc urls))
  = Return
      [mkMCPCrawlResult error None None
         (Some ("Expected an AsyncIterator instance from arun, got: "
                  ++ type_repr_of pages)%string)].
Proof.
  intros Hnew Henter Hredirect Hexit Hpages Hnot.
  run_tool. rewrite Hnew. cbn.
  rewrite Henter, Hredirect, Hexit, Hpages. cbn.
  destruct pages as [r | inner | items ending | t]; try reflexivity.
  now contradiction (Hnot items ending).
Qed.

(** X11: the first [Exception] on the way to the pages is the one result
    of [crawl]: when the constructor raises it, or [__aenter__] does, or --
    the session then being left without an exception -- the redirection
    of stdout or [arun_many] does, [crawl] returns exactly one error
    result, "An unexpected error occurred during crawl: " followed by the
    exception's message. *)
Theorem crawl_reports_a_failed_call
        (settings : Settings) (proc : Process) (urls : list string)
        (e : Exc) :
  exc_is_Exception e = true ->
  new_crawler proc = Raise e
  \/ (exists crawler,
         new_crawler proc = Ok crawler
         /\ (aenter crawler = Some e
             \/ (aenter crawler = None /\ aexit crawler = None
                 /\ (redirect_stdout proc = Some e
                     \/ (redirect_stdout proc = None
                         /\ arun_many crawler urls (crawl_config settings)
                            = Raise e))))) ->
  snd (run (crawl settings proc urls))
  = Return
      [mkMCPCrawlResult error None None
         (Some ("An unexpected error occurred during crawl: "
                  ++ exc_str e)%string)].
Proof.
  intros He [Hnew | (crawler & Hnew & [Henter | (Henter & Hexit & Hrest)])];
    run_tool; rewrite Hnew; cbn.
  - now rewrite He.
  - rewrite Henter. cbn. now rewrite He.
  - rewrite Henter, Hexit.
    destruct Hrest as [Hredirect | (Hredirect & Hcall)];
      rewrite Hredirect; cbn.
    + now rewrite He.
    + rewrite Hcall. cbn. now rewrite He.
Qed.

(** X12: when [__aexit__] raises an [Exception], that exception replaces
    what the block did.  If the block failed before the loop (the
    redirection or [arun_many] raised) or returned early (a non-iterator),
    its own error is lost and [crawl] returns the error of [__aexit__]
    alone; if the loop normalised the pages, they are kept, the exception
    the sequence ended with (if any) is lost, and the one trailing error is
    that of [__aexit__]. *)
Theorem crawl_exit_failure_replaces_the_outcome
        (settings : Settings) (proc : Process) (crawler : AsyncWebCrawler)
        (urls : list string) (e : Exc) :
  new_crawler proc = Ok crawler ->
  aenter crawler = None ->
  aexit crawler = Some e ->
  exc_is_Exception e = true ->
  (redirect_stdout proc <> None
   \/ (exists e',
          arun_many crawler urls (crawl_config settings) = Raise e')
   \/ (exists pages,
          arun_many crawler urls (crawl_config settings) = Ok pages
          /\ forall items ending, pages <> PyAsyncIterator items ending) ->
   snd (run (crawl settings proc urls))
   = Return
       [mkMCPCrawlResult error None None
          (Some ("An unexpected error occurred during crawl: "
                   ++ exc_str e)%string)])
  /\ (forall items ending rs,
         redirect_stdout proc = None ->
         arun_many crawler urls (crawl_config settings)
         = Ok (PyAsyncIterator items ending) ->
         Forall2 (fun page_result res =>
                    handle_crawl_result settings page_result = Ok res)
                 items rs ->
         snd (run (crawl settings proc urls))
         = Return
             (rs ++ [mkMCPCrawlResult error None None
                       (Some ("An unexpected error occurred during crawl: "
                                ++ exc_str e)%string)])).
Proof.
  intros Hnew Henter Hexit He. split.
  - intros Hblock.
    run_tool. rewrite Hnew. cbn. rewrite Henter, Hexit.
    destruct (redirect_stdout proc) as [e0|] eqn:Hredirect; cbn.
    { now rewrite He. }
    destruct Hblock as [Hno | [(e' & Hcall) | (pages & Hpages & Hnot)]].
    + now contradiction Hno.
    + rewrite Hcall. cbn. now rewrite He.
    + rewrite Hpages. cbn.
      destruct pages as [r | inner | items ending | t]; cbn;
        try (now rewrite He).
      now contradiction (Hnot items ending).
  - intros items ending rs Hredirect Hpages Hitems.
    run_tool. rewrite Hnew. cbn.
    rewrite Henter, Hexit, Hredirect, Hpages. cbn.
    rewrite (@async_for_appends settings items ending rs Hitems). cbn.
    destruct ending; cbn; now rewrite He.
Qed.

(** ** deep_crawl: further properties *)

(** X13: when the session is constructed, stdout is redirected, [close]
    does not raise and the sequence returned by [arun] yields elements
    that each normalise, [deep_crawl] returns the normalised pages in the
    order they were yielded, followed by one error result "An error
    occurred during deep crawl: ..." when the sequence ended by raising an
    [Exception], and by nothing when it just ended. *)
Theorem deep_crawl_results_in_order
        (settings : Settings) (proc : Process) (crawler : AsyncWebCrawler)
        (url : string) (keywords : option (list string))
        (items : list PyValue) (ending : option Exc)
        (rs : list MCPCrawlResult) :
  new_crawler proc = Ok crawler ->
  redirect_stdout proc = None ->
  close crawler = None ->
  arun crawler url (deep_crawl_config settings keywords)
  = Ok (PyAsyncIterator items ending) ->
  (forall e, ending = Some e -> exc_is_Exception e = true) ->
  Forall2 (fun page_result res =>
             handle_crawl_result settings page_result = Ok res) items rs ->
  snd (run (deep_crawl settings proc url keywords))
  = Return
      (rs ++ match ending with
             | None => []
             | Some e =>
                 [mkMCPCrawlResult error None None
                    (Some ("An error occurred during deep crawl: "
                             ++ exc_str e)%string)]
             end).
Proof.
  intros Hnew Hredirect Hclose Hpages Hexc Hitems.
  run_tool. rewrite Hnew. cbn. rewrite Hredirect, Hclose, Hpages. cbn.
  rewrite (@async_for_appends settings items ending rs Hitems). cbn.
  destruct ending as [e|]; cbn.
  - now rewrite (Hexc e eq_refl).
  - now rewrite app_nil_r.
Qed.

(** X14: once the traversal is being consumed (session constructed, stdout
    redirected, [close] not raising), an empty container among the pages
    ends [deep_crawl] as it ends [crawl]: the results before it are kept,
    one error result "An error occurred during deep crawl: list index out
    of range" follows, the rest of the traversal is dropped. *)
Theorem deep_crawl_stops_at_an_empty_container
        (settings : Settings) (proc : Process) (crawler : AsyncWebCrawler)
        (url : string) (keywords : option (list string))
        (before after : list PyValue) (ending : option Exc)
        (rs : list MCPCrawlResult) :
  new_crawler proc = Ok crawler ->
  redirect_stdout proc = None ->
  close crawler = None ->
  arun crawler url (deep_crawl_config settings keywords)
  = Ok (PyAsyncIterator (before ++ PyContainer [] :: after) ending) ->
  Forall2 (fun page_result res =>
             handle_crawl_result settings page_result = Ok res) before rs ->
  snd (run (deep_crawl settings proc url keywords))
  = Return
      (rs ++ [mkMCPCrawlResult error None None
                (Some "An error occurred during deep crawl: list index out of range")]).
Proof.
  intros Hnew Hredirect Hclose Hpages Hbefore.
  run_tool. rewrite Hnew. cbn. rewrite Hredirect, Hclose, Hpages. cbn.
  now rewrite (@async_for_stops settings before after (PyContainer [])
                 ending IndexError rs Hbefore eq_refl).
Qed.

(** On a constructed session, [deep_crawl] is its [try] statement run
    after the constructor, then [return results]. *)
Lemma deep_crawl_with_session
      (settings : Settings) (proc : Process) (crawler : AsyncWebCrawler)
      (url : string) (keywords : option (list string)) :
  new_crawler proc = Ok crawler ->
  run (deep_crawl settings proc url keywords)
  = (try_finally
       (try_except
          (with_redirect_stdout proc
             (await (EvArun url)
                (arun crawler url (deep_crawl_config settings keywords))
                (consume settings)))
          (fun e => results_append (deep_crawl_error e)))
       (await_unit EvClose (close crawler)) ;;
     ret_with results) (mkFrame [EvCreate] []).
Proof.
  intros Hnew.
  unfold run, deep_crawl, results_init, log, modify, initial_frame.
  unfold Stmt.seq at 1 2. cbn. now rewrite Hnew.
Qed.


(** X16: an exception raised by [close] in the [finally] block is not
    caught: whatever session the constructor returned, and whether or not
    the redirection of stdout raised, [deep_crawl] raises the exception of
    [close], and the pages collected until then are not returned. *)
Theorem deep_crawl_close_failure_propagates
        (settings : Settings) (redirect : option Exc)
        (crawler : AsyncWebCrawler)
        (url : string) (keywords : option (list string)) (e : Exc) :
  close crawler = Some e ->
  snd (run (deep_crawl settings (mkProcess (Ok crawler) redirect)
                       url keywords))
  = Throw e.
Proof.
  intros Hclose.
  rewrite (@deep_crawl_with_session settings (mkProcess (Ok crawler) redirect)
             crawler url keywords eq_refl).
  generalize (with_redirect_stdout (mkProcess (Ok crawler) redirect)
                (await (EvArun url)
                   (arun crawler url (deep_crawl_config settings keywords))
                   (consume settings))).
  intros body.
  unfold Stmt.seq, try_finally, try_except, await_unit, log,
    results_init, results_append, ret_with, modify, skip, throw.
  cbn. rewrite Hclose.
  destruct (body _) as [fr [|early|e']]; cbn;
    try destruct (exc_is_Exception e'); reflexivity.
Qed.

(** X17: with the session constructed and [close] not raising,
    [deep_crawl] returns exactly one error result when the traversal
    cannot start: "An error occurred during deep crawl: " followed by the
    message when the redirection of stdout raises an [Exception] ([arun]
    is then not called) or [arun] raises one, and "Expected an
    AsyncIterator instance from arun, got: " followed by the type when
    [arun] returns something that is not an asynchronous iterator. *)
Theorem deep_crawl_reports_a_failed_call
        (settings : Settings) (proc : Process) (crawler : AsyncWebCrawler)
        (url : string) (keywords : option (list string)) :
  new_crawler proc = Ok crawler ->
  close crawler = None ->
  (forall e,
      exc_is_Exception e = true ->
      redirect_stdout proc = Some e
      \/ (redirect_stdout proc = None
          /\ arun crawler url (deep_crawl_config settings keywords)
             = Raise e) ->
      snd (run (deep_crawl settings proc url keywords))
      = Return
          [mkMCPCrawlResult error None None
             (Some ("An error occurred during deep crawl: "
                      ++ exc_str e)%string)])
  /\ (forall pages,
         redirect_stdout proc = None ->
         arun crawler url (deep_crawl_config settings keywords) = Ok pages ->
         (forall items ending, pages <> PyAsyncIterator items ending) ->
         snd (run (deep_crawl settings proc url keywords))
         = Return
             [mkMCPCrawlResult error None None
                (Some ("Expected an AsyncIterator instance from arun, got: "
                         ++ type_repr_of pages)%string)]).
Proof.
  intros Hnew Hclose. split.
  - intros e He [Hredirect | (Hredirect & Hcall)];
      run_tool; rewrite Hnew; cbn; rewrite Hredirect, Hclose; cbn.
    + now rewrite He.
    + rewrite Hcall. cbn. now rewrite He.
  - intros pages Hredirect Hpages Hnot.
    run_tool. rewrite Hnew. cbn. rewrite Hredirect, Hclose, Hpages. cbn.
    destruct pages as [r | inner | items ending | t]; try reflexivity.
    now contradiction (Hnot items ending).
Qed.

(** ** google_search *)

Arguments google_search_url : simpl never.

(** X18: [google_search] lets no [Exception] out: it returns one result,
    or raises an exception that is not an instance of [Exception]. *)
Theorem google_search_lets_no_Exception_out
        (quote : string -> Result string) (settings : Settings)
        (proc : Process) (query : string) :
  match snd (run_search (google_search quote settings proc query)) with
  | Normal => False
  | Return _ => True
  | Throw e => exc_is_Exception e = false
  end.
Proof.
  unfold run_search, google_search, try_except, Stmt.ret.
  set (body := async_with_session proc _).
  assert (Hbody : snd (body initial_frame) <> Normal).
  { subst body.
    unfold async_with_session, with_redirect_stdout,
      await_call_unit, await_call, try_finally.
    unfold Stmt.seq, log_call, modify, initial_frame. cbn.
    destruct (new_crawler proc) as [crawler|e0]; cbn; [|discriminate].
    destruct (aenter crawler) as [e|]; cbn; [discriminate|].
    destruct (redirect_stdout proc) as [e|]; cbn.
    { destruct (aexit crawler); cbn; discriminate. }
    destruct (quote query) as [quoted|e]; cbn.
    - destruct (arun crawler _ _) as [result|e]; cbn.
      + destruct (handle_crawl_result settings result) as [res|e]; cbn;
          destruct (aexit crawler); cbn; discriminate.
      + destruct (aexit crawler); cbn; discriminate.
    - destruct (aexit crawler); cbn; discriminate. }
  destruct (body initial_frame) as [fr [|res|e]]; cbn in *.
  - now contradiction Hbody.
  - exact I.
  - destruct (exc_is_Exception e) eqn:He; cbn; auto.
Qed.

(** X19: when the session is constructed, entered and left without an
    exception, stdout is redirected, the query is quoted and [arun]
    returns a value that normalises, [google_search] returns the
    normalised result; the one page fetched is
    "https://www.google.com/search?q=<quoted query>&start=0&num=10",
    between [__aenter__] and [__aexit__]. *)
Theorem google_search_normalises_the_page
        (quote : string -> Result string) (settings : Settings)
        (proc : Process) (crawler : AsyncWebCrawler)
        (query quoted : string)
        (result : PyValue) (res : MCPCrawlResult) :
  new_crawler proc = Ok crawler ->
  aenter crawler = None ->
  redirect_stdout proc = None ->
  aexit crawler = None ->
  quote query = Ok quoted ->
  arun crawler
       ("https://www.google.com/search?q=" ++ quoted ++ "&start=0&num=10")%string
       (google_search_config settings)
  = Ok result ->
  handle_crawl_result settings result = Ok res ->
  run_search (google_search quote settings proc query)
  = (mkFrame
       [EvCreate; EvEnter;
        EvArun ("https://www.google.com/search?q=" ++ quoted
                  ++ "&start=0&num=10")%string;
        EvExit] [],
     Return res).
Proof.
  intros Hnew Henter Hredirect Hexit Hquote Hrun Hres.
  fold (google_search_url quoted) in Hrun.
  run_tool. rewrite Hnew. cbn.
  rewrite Henter, Hredirect, Hexit, Hquote. cbn.
  rewrite Hrun. cbn. now rewrite Hres.
Qed.

(** X20: when the page is fetched (session constructed, entered and left
    without an exception, stdout redirected, query quoted) and is an empty
    container, the [IndexError] of the normalisation is caught by the
    search: the result is the error "An error occurred during Google
    search: list index out of range". *)
Theorem google_search_on_an_empty_container
        (quote : string -> Result string) (settings : Settings)
        (proc : Process) (crawler : AsyncWebCrawler)
        (query quoted : string) :
  new_crawler proc = Ok crawler ->
  aenter crawler = None ->
  redirect_stdout proc = None ->
  aexit crawler = None ->
  quote query = Ok quoted ->
  arun crawler (google_search_url quoted) (google_search_config settings)
  = Ok (PyContainer []) ->
  snd (run_search (google_search quote settings proc query))
  = Return
      (mkMCPCrawlResult error None None
         (Some "An error occurred during Google search: list index out of range")).
Proof.
  intros Hnew Henter Hredirect Hexit Hquote Hrun.
  run_tool. rewrite Hnew. cbn.
  rewrite Henter, Hredirect, Hexit, Hquote. cbn. now rewrite Hrun.
Qed.

(** X21: the first [Exception] on the way to the page is the result of
    [google_search]: when the constructor raises it, or [__aenter__] does,
    or -- the session then being left without an exception -- the
    redirection of stdout, the quoting of the query or [arun] does, the
    search returns the error "An error occurred during Google search: "
    followed by the exception's message. *)
Theorem google_search_reports_a_failed_call
        (quote : string -> Result string) (settings : Settings)
        (proc : Process) (query : string) (e : Exc) :
  exc_is_Exception e = true ->
  new_crawler proc = Raise e
  \/ (exists crawler,
         new_crawler proc = Ok crawler
         /\ (aenter crawler = Some e
             \/ (aenter crawler = None /\ aexit crawler = None
                 /\ (redirect_stdout proc = Some e
                     \/ (redirect_stdout proc = None
                         /\ (quote query = Raise e
                             \/ exists quoted,
                                  quote query = Ok quoted
                                  /\ arun crawler (google_search_url quoted)
                                          (google_search_config settings)
                                     = Raise e)))))) ->
  snd (run_search (google_search quote settings proc query))
  = Return
      (mkMCPCrawlResult error None None
         (Some ("An error occurred during Google search: "
                  ++ exc_str e)%string)).
Proof.
  intros He [Hnew | (crawler & Hnew & [Henter | (Henter & Hexit & Hrest)])];
    run_tool; rewrite Hnew; cbn.
  - now rewrite He.
  - rewrite Henter. cbn. now rewrite He.
  - rewrite Henter, Hexit.
    destruct Hrest as [Hredirect | (Hredirect & Hrest)];
      rewrite Hredirect; cbn.
    + now rewrite He.
    + destruct Hrest as [Hquote | (quoted & Hquote & Hrun)];
        rewrite Hquote; cbn.
      * now rewrite He.
      * rewrite Hrun. cbn. now rewrite He.
Qed.

(** ** main.py: the flag *)

(** X22: the command fails with a usage error, without running [main],
    exactly when [--transport] is given a value other than "stdio" and
    "html" (compared case-sensitively); without the flag it runs. *)
Theorem transport_usage_error
        (flag : option string) :
  Cli.command flag = None
  <-> exists value, flag = Some value /\ value <> "stdio" /\ value <> "html".
Proof.
  unfold Cli.command. destruct flag as [value|]; cbn [Cli.transport_option].
  - unfold Cli.choice, Cli.transport_choices. cbn [existsb].
    rewrite orb_false_r.
    destruct (String.eqb_spec value "stdio") as [->|Hstdio].
    + cbn. split; [discriminate|]. intros (v & E & H & _).
      injection E as <-. now contradiction H.
    + destruct (String.eqb_spec value "html") as [->|Hhtml].
      * cbn. split; [discriminate|]. intros (v & E & _ & H).
        injection E as <-. now contradiction H.
      * cbn. split; [|reflexivity]. intros _. now exists value.
  - cbn. split; [discriminate|]. intros (v & E & _). discriminate E.
Qed.

(** X23: no command line makes the server run over "streamable-http":
    "http", the only value for which [main] selects it, is refused by the
    flag. *)
Theorem streamable_http_is_unreachable (flag : option string) :
  Cli.command flag <> Some "streamable-http"
  /\ (forall transport,
         Cli.main transport = "streamable-http" ->
         Cli.transport_option (Some transport) = None).
Proof.
  split.
  - intros E. apply command_always_stdio in E. discriminate E.
  - intros transport. unfold Cli.main.
    destruct (String.eqb_spec transport "http") as [->|Hne];
      [reflexivity | discriminate].
Qed.

(** ** The further properties at concrete inputs *)

Lemma unexpected_type_is_reported_at_sample :
  handle_crawl_result default_settings
    (PyContainer [PyContainer [page "http://x" "A"]; page "http://y" "B"])
  = Ok (mkMCPCrawlResult error None None
          (Some "Unexpected result type from crawler: <class 'crawl4ai.models.CrawlResultContainer'>")).
Proof.
  refine (proj1 (@unexpected_type_is_reported default_settings
                   (PyContainer [page "http://x" "A"])
                   [page "http://y" "B"] _)).
  intros r. discriminate.
Defined.

Lemma extracted_content_never_succeeds_at_sample :
  status (error_result no_valid_content) = error
  /\ content (error_result no_valid_content) = None.
Proof.
  apply (@extracted_content_never_succeeds
           (with_content_type "markdown") (PyContainer [PyCrawlResult pre_extracted])
           pre_extracted "{}" (error_result no_valid_content));
    try reflexivity; discriminate.
Defined.

Lemma only_the_html_test_matters_at_sample :
  handle_crawl_result (with_content_type "markdown") (page "http://x" "A")
  = handle_crawl_result (with_content_type "HTML") (page "http://x" "A").
Proof.
  apply (@only_the_html_test_matters
           (with_content_type "markdown") (with_content_type "HTML")).
  reflexivity.
Defined.

Lemma success_status_needs_success_flag_at_sample :
  exists r,
    outcome_of (page "http://x" "A") = Some r /\ cr_success r = true.
Proof.
  destruct (@success_status_needs_success_flag
              (with_content_type "markdown") (page "http://x" "A")
              (mkMCPCrawlResult success (Some "http://x") (Some "A") None)
              eq_refl eq_refl)
    as (r & Hv & Hok & _).
  exists r. split; assumption.
Defined.

Lemma success_without_markdown_is_an_error_at_sample :
  exists msg,
    handle_crawl_result (with_content_type "markdown")
      (PyCrawlResult (mock_crawl_result true "http://x" None None None None))
    = Ok (mkMCPCrawlResult error None None (Some msg))
    /\ (forall s, @None string = Some s -> s <> "" -> msg = s)
    /\ (@None string = None \/ @None string = Some "" ->
        msg = "Unknown crawl error.").
Proof.
  apply (@success_without_markdown_is_an_error
           (with_content_type "markdown")
           (mock_crawl_result true "http://x" None None None None));
    try reflexivity; discriminate.
Defined.

Lemma crawl_returns_one_result_per_page_at_sample :
  snd (run (crawl default_settings
              (process_with
                 (mock_crawler
                    (Ok (PyAsyncIterator
                           [page "http://a" "A"; page "http://b" "B"] None))))
              ["http://a"; "http://b"; "http://c"]))
  = Return [mkMCPCrawlResult success (Some "http://a") (Some "A") None;
            mkMCPCrawlResult success (Some "http://b") (Some "B") None]
  /\ length [mkMCPCrawlResult success (Some "http://a") (Some "A") None;
             mkMCPCrawlResult success (Some "http://b") (Some "B") None]
     = length [page "http://a" "A"; page "http://b" "B"].
Proof.
  apply (@crawl_returns_one_result_per_page default_settings
           (process_with
              (mock_crawler
                 (Ok (PyAsyncIterator
                        [page "http://a" "A"; page "http://b" "B"] None))))
           (mock_crawler
              (Ok (PyAsyncIterator
                     [page "http://a" "A"; page "http://b" "B"] None)))
           ["http://a"; "http://b"; "http://c"]
           [page "http://a" "A"; page "http://b" "B"]);
    try reflexivity.
  repeat constructor.
Defined.

Lemma crawl_stops_at_an_empty_container_at_sample :
  snd (run (crawl default_settings
              (process_with
                 (mock_crawler
                    (Ok (PyAsyncIterator
                           ([page "http://a" "A"]
                              ++ PyContainer [] :: [page "http://b" "B"])
                           None))))
              ["http://a"; "http://b"]))
  = Return
      ([mkMCPCrawlResult success (Some "http://a") (Some "A") None]
         ++ [mkMCPCrawlResult error None None
               (Some "An unexpected error occurred during crawl: list index out of range")]).
Proof.
  apply (@crawl_stops_at_an_empty_container default_settings
           (process_with
              (mock_crawler
                 (Ok (PyAsyncIterator
                        ([page "http://a" "A"]
                           ++ PyContainer [] :: [page "http://b" "B"])
                        None))))
           (mock_crawler
              (Ok (PyAsyncIterator
                     ([page "http://a" "A"]
                        ++ PyContainer [] :: [page "http://b" "B"])
                     None)))
           ["http://a"; "http://b"]
           [page "http://a" "A"] [page "http://b" "B"] None);
    try reflexivity.
  repeat constructor.
Defined.

Lemma crawl_rejects_a_non_iterator_at_sample :
  snd (run (crawl default_settings
              (process_with (mock_crawler (Ok (page "http://a" "A"))))
              ["http://a"]))
  = Return
      [mkMCPCrawlResult error None None
         (Some ("Expected an AsyncIterator instance from arun, got: "
                  ++ type_repr_of (page "http://a" "A"))%string)].
Proof.
  apply (@crawl_rejects_a_non_iterator default_settings
           (process_with (mock_crawler (Ok (page "http://a" "A"))))
           (mock_crawler (Ok (page "http://a" "A"))) ["http://a"]
           (page "http://a" "A"));
    try reflexivity.
  intros items ending. discriminate.
Defined.

Lemma crawl_reports_a_failed_call_at_sample :
  snd (run (crawl default_settings
              (process_without_stderr
                 (mock_crawler
                    (Ok (PyAsyncIterator [page "http://a" "A"] None))))
              ["http://a"]))
  = Return
      [mkMCPCrawlResult error None None
         (Some ("An unexpected error occurred during crawl: "
                  ++ exc_str closed_file)%string)].
Proof.
  apply (@crawl_reports_a_failed_call default_settings
           (process_without_stderr
              (mock_crawler
                 (Ok (PyAsyncIterator [page "http://a" "A"] None))))
           ["http://a"] closed_file).
  - reflexivity.
  - right.
    exists (mock_crawler (Ok (PyAsyncIterator [page "http://a" "A"] None))).
    split; [reflexivity|]. right. repeat split. left. reflexivity.
Defined.

Lemma crawl_exit_failure_replaces_the_outcome_at_sample :
  snd (run (crawl default_settings
              (process_with
                 (scoped_crawler None (Some (plain_exception "close failed"))
                    (Ok (PyAsyncIterator [page "http://a" "A"]
                           (Some (plain_exception "boom"))))))
              ["http://a"]))
  = Return
      ([mkMCPCrawlResult success (Some "http://a") (Some "A") None]
         ++ [mkMCPCrawlResult error None None
               (Some ("An unexpected error occurred during crawl: "
                        ++ exc_str (plain_exception "close failed"))%string)]).
Proof.
  apply (proj2 (@crawl_exit_failure_replaces_the_outcome default_settings
                  (process_with
                     (scoped_crawler None
                        (Some (plain_exception "close failed"))
                        (Ok (PyAsyncIterator [page "http://a" "A"]
                               (Some (plain_exception "boom"))))))
                  (scoped_crawler None
                     (Some (plain_exception "close failed"))
                     (Ok (PyAsyncIterator [page "http://a" "A"]
                            (Some (plain_exception "boom")))))
                  ["http://a"] (plain_exception "close failed")
                  eq_refl eq_refl eq_refl eq_refl)
           [page "http://a" "A"] (Some (plain_exception "boom"))
           [mkMCPCrawlResult success (Some "http://a") (Some "A") None]);
    try reflexivity.
  repeat constructor.
Defined.

Lemma deep_crawl_results_in_order_at_sample :
  snd (run (deep_crawl default_settings
              (process_with
                 (mock_crawler
                    (Ok (PyAsyncIterator
                           [page "http://site.com/page1" "Page 1"]
                           (Some (plain_exception "lost"))))))
              "http://testsite.com" (Some ["keyword1"])))
  = Return
      ([mkMCPCrawlResult success (Some "http://site.com/page1")
          (Some "Page 1") None]
         ++ [mkMCPCrawlResult error None None
               (Some ("An error occurred during deep crawl: "
                        ++ exc_str (plain_exception "lost"))%string)]).
Proof.
  apply (@deep_crawl_results_in_order default_settings
           (process_with
              (mock_crawler
                 (Ok (PyAsyncIterator [page "http://site.com/page1" "Page 1"]
                                      (Some (plain_exception "lost"))))))
           (mock_crawler
              (Ok (PyAsyncIterator [page "http://site.com/page1" "Page 1"]
                                   (Some (plain_exception "lost")))))
           "http://testsite.com" (Some ["keyword1"])
           [page "http://site.com/page1" "Page 1"]
           (Some (plain_exception "lost"))
           [mkMCPCrawlResult success (Some "http://site.com/page1")
              (Some "Page 1") None]);
    try reflexivity.
  - intros e E. injection E as <-. reflexivity.
  - repeat constructor.
Defined.

Lemma deep_crawl_stops_at_an_empty_container_at_sample :
  snd (run (deep_crawl default_settings
              (process_with
                 (mock_crawler
                    (Ok (PyAsyncIterator
                           ([] ++ PyContainer [] :: [page "http://b" "B"])
                           None))))
              "http://testsite.com" None))
  = Return
      ([] ++ [mkMCPCrawlResult error None None
                (Some "An error occurred during deep crawl: list index out of range")]).
Proof.
  apply (@deep_crawl_stops_at_an_empty_container default_settings
           (process_with
              (mock_crawler
                 (Ok (PyAsyncIterator
                        ([] ++ PyContainer [] :: [page "http://b" "B"])
                        None))))
           (mock_crawler
              (Ok (PyAsyncIterator
                     ([] ++ PyContainer [] :: [page "http://b" "B"]) None)))
           "http://testsite.com" None [] [page "http://b" "B"] None []);
    try reflexivity.
  constructor.
Defined.

Lemma deep_crawl_close_failure_propagates_at_sample :
  snd (run (deep_crawl default_settings
              (mkProcess
                 (Ok (crawler_with
                        (Ok (PyAsyncIterator [page "http://a" "A"] None))
                        (Some (plain_exception "close failed"))))
                 None)
              "http://testsite.com" None))
  = Throw (plain_exception "close failed").
Proof.
  apply (@deep_crawl_close_failure_propagates default_settings None
           (crawler_with
              (Ok (PyAsyncIterator [page "http://a" "A"] None))
              (Some (plain_exception "close failed")))
           "http://testsite.com" None (plain_exception "close failed")).
  reflexivity.
Defined.

Lemma deep_crawl_reports_a_failed_call_at_sample :
  snd (run (deep_crawl default_settings
              (process_without_stderr
                 (mock_crawler
                    (Ok (PyAsyncIterator [page "http://a" "A"] None))))
              "http://testsite.com" None))
  = Return
      [mkMCPCrawlResult error None None
         (Some ("An error occurred during deep crawl: "
                  ++ exc_str closed_file)%string)].
Proof.
  apply (proj1 (@deep_crawl_reports_a_failed_call default_settings
                  (process_without_stderr
                     (mock_crawler
                        (Ok (PyAsyncIterator [page "http://a" "A"] None))))
                  (mock_crawler
                     (Ok (PyAsyncIterator [page "http://a" "A"] None)))
                  "http://testsite.com" None eq_refl eq_refl)
           closed_file eq_refl).
  left. reflexivity.
Defined.

Lemma google_search_normalises_the_page_at_sample :
  run_search (google_search quote_unreserved (with_content_type "markdown")
                (process_with
                   (mock_crawler
                      (Ok (PyContainer [page "http://google.com/search?q=test"
                                             "Google search results"]))))
                "test")
  = (mkFrame
       [EvCreate; EvEnter;
        EvArun ("https://www.google.com/search?q=" ++ "test"
                  ++ "&start=0&num=10")%string;
        EvExit] [],
     Return (mkMCPCrawlResult success (Some "http://google.com/search?q=test")
               (Some "Google search results") None)).
Proof.
  apply (@google_search_normalises_the_page quote_unreserved
           (with_content_type "markdown")
           (process_with
              (mock_crawler
                 (Ok (PyContainer [page "http://google.com/search?q=test"
                                        "Google search results"]))))
           (mock_crawler
              (Ok (PyContainer [page "http://google.com/search?q=test"
                                     "Google search results"])))
           "test" "test"
           (PyContainer [page "http://google.com/search?q=test"
                              "Google search results"]));
    reflexivity.
Defined.

Lemma google_search_on_an_empty_container_at_sample :
  snd (run_search (google_search quote_unreserved default_settings
                     (process_with (mock_crawler (Ok (PyContainer []))))
                     "test"))
  = Return
      (mkMCPCrawlResult error None None
         (Some "An error occurred during Google search: list index out of range")).
Proof.
  apply (@google_search_on_an_empty_container quote_unreserved
           default_settings
           (process_with (mock_crawler (Ok (PyContainer []))))
           (mock_crawler (Ok (PyContainer [])))
           "test" "test");
    reflexivity.
Defined.

Lemma google_search_reports_a_failed_call_at_sample :
  snd (run_search (google_search quote_unreserved default_settings
                     (process_with
                        (mock_crawler
                           (Raise (plain_exception "Network error"))))
                     "error"))
  = Return
      (mkMCPCrawlResult error None None
         (Some ("An error occurred during Google search: "
                  ++ exc_str (plain_exception "Network error"))%string)).
Proof.
  apply (@google_search_reports_a_failed_call quote_unreserved
           default_settings
           (process_with
              (mock_crawler (Raise (plain_exception "Network error"))))
           "error" (plain_exception "Network error")).
  - reflexivity.
  - right.
    exists (mock_crawler (Raise (plain_exception "Network error"))).
    split; [reflexivity|]. right. repeat split. right.
    split; [reflexivity|]. right. exists "error". split; reflexivity.
Defined.
